(** * deep-facility: a shallow embedding of the geospatial pipeline

    The development models the core of the [deepfacility] package
    (household derivation, clustering, facility placement, distance
    assignment and result merging) and proves the properties its
    specification states about it.

    Conventions.
    - A Python [float] is modelled by an exact real number of [R]: rounding
      is not modelled, so every numerical statement below is a statement
      about the formulas the code evaluates.
    - A pandas [DataFrame] is an ordered list of column names and a list of
      rows; the row labels are the positions (a [RangeIndex]).
    - Objects that the code mutates in place and shares with its caller live
      in a heap and are passed by reference.
    - Library routines whose result the code only passes on (the k-means
      fit, the geometric predicate of the spatial join, the plus-code
      encoder) are parameters of the functions that call them. *)

From Stdlib Require Import List ZArith Reals Lra Lia String Ascii Bool.
From Stdlib Require Import Permutation Sorted.
From Stdlib Require OrderedTypeEx.
From stdpp Require Import base list gmap strings pretty.
Import ListNotations.

(** ** Python values, exceptions and results *)

(** A shapely geometry: a point, or a polygon given by its outer ring. *)
Inductive Geometry : Type :=
| Point (x y : R)
| Polygon (shell : list (R * R)).

Inductive value : Type :=
| VInt (z : Z)
| VFloat (r : R)
| VStr (s : string)
| VBool (b : bool)
| VGeom (g : Geometry)
| VNaN.

Inductive exn : Type :=
| KeyError (key : string)
| IndexError
| ValueError (msg : string)
| TypeError
| AssertionError (msg : string)
| InterruptedError
| ReferenceError
| EmptyDataError
| FileNotFoundError (path : string)
| AttributeError (name : string).

Inductive result (A : Type) : Type :=
| Ok (a : A)
| Raise (e : exn).
Arguments Ok {A} a.
Arguments Raise {A} e.

Definition result_bind {A B} (r : result A) (k : A -> result B) : result B :=
  match r with
  | Ok a => k a
  | Raise e => Raise e
  end.

#[export] Instance result_ret : MRet result := fun A a => Ok a.
#[export] Instance result_mbind : MBind result :=
  fun A B k r => result_bind r k.

(** [l[i]] on a Python list. *)
Definition list_get {A} (l : list A) (i : nat) : result A :=
  match l !! i with
  | Some a => Ok a
  | None => Raise IndexError
  end.

Fixpoint mapR {A B} (f : A -> result B) (l : list A) : result (list B) :=
  match l with
  | [] => Ok []
  | a :: l' => b ← f a; bs ← mapR f l'; Ok (b :: bs)
  end.


(** ** pandas frames *)

Module pd.

Record DataFrame : Type := mkDF {
  columns : list string;
  rows : list (list value)
}.

(** [len(df)]. *)
Definition len (df : DataFrame) : nat := length (rows df).

Fixpoint index_of (name : string) (cols : list string) : option nat :=
  match cols with
  | [] => None
  | c :: cols' =>
      if String.eqb c name then Some O else S <$> index_of name cols'
  end.

Definition has_col (df : DataFrame) (name : string) : bool :=
  bool_decide (is_Some (index_of name (columns df))).

Definition cell (i : nat) (row : list value) : value := default VNaN (row !! i).

(** [df[name].values]; column names are taken to be unique, the first
    match is the column. *)
Definition getitem (df : DataFrame) (name : string) : result (list value) :=
  match index_of name (columns df) with
  | Some i => Ok (map (cell i) (rows df))
  | None => Raise (KeyError name)
  end.

(** [df[name] = vals] for an array [vals]: overwrites the column when it
    exists and appends it otherwise. *)
Definition setitem (df : DataFrame) (name : string) (vals : list value)
  : result DataFrame :=
  if negb (length vals =? len df)%nat then
    Raise (ValueError "Length of values does not match length of index")
  else
    Ok match index_of name (columns df) with
       | Some i =>
           mkDF (columns df) (zip_with (fun r v => <[i:=v]> r) (rows df) vals)
       | None =>
           mkDF (columns df ++ [name])
                (zip_with (fun r v => r ++ [v]) (rows df) vals)
       end.

(** [df[names]] for a list of names. *)
Definition select (df : DataFrame) (names : list string) : result DataFrame :=
  idx ← mapR (fun n => match index_of n (columns df) with
                       | Some i => Ok i
                       | None => Raise (KeyError n)
                       end) names;
  Ok (mkDF names (map (fun r => map (fun i => cell i r) idx) (rows df))).

Definition mask {A} (keep : list bool) (l : list A) : list A :=
  map snd (List.filter fst (combine keep l)).

Definition drop_cols (df : DataFrame) (labels : list string) : DataFrame :=
  let keep := map (fun c => negb (existsb (String.eqb c) labels)) (columns df) in
  mkDF (mask keep (columns df)) (map (mask keep) (rows df)).

(** [df.drop(labels, axis=1)]: a new frame; a label that is not a column
    raises. *)
Definition drop (df : DataFrame) (labels : list string) : result DataFrame :=
  match List.find (fun l => negb (has_col df l)) labels with
  | Some l => Raise (KeyError l)
  | None => Ok (drop_cols df labels)
  end.

(** *** Ordering of cells and rows *)

Definition kind_rank (v : value) : nat :=
  match v with
  | VBool _ => 0
  | VInt _ => 1
  | VFloat _ => 2
  | VStr _ => 3
  | VGeom _ => 4
  | VNaN => 5
  end.

Definition Rcompare (x y : R) : comparison :=
  match total_order_T x y with
  | inleft (left _) => Lt
  | inleft (right _) => Eq
  | inright _ => Gt
  end.

(** Lexicographic order of sequences. *)
Fixpoint lex_compare {A} (cmp : A -> A -> comparison) (k1 k2 : list A)
  : comparison :=
  match k1, k2 with
  | [], [] => Eq
  | [], _ :: _ => Lt
  | _ :: _, [] => Gt
  | a :: k1', b :: k2' =>
      match cmp a b with
      | Eq => lex_compare cmp k1' k2'
      | c => c
      end
  end.

Definition coord_compare (p q : R * R) : comparison :=
  match Rcompare (fst p) (fst q) with
  | Eq => Rcompare (snd p) (snd q)
  | c => c
  end.

(** Geometries are ordered by their coordinate sequences, points first.  The
    source leaves the order of a geometry column to the library; the model
    fixes one total order. *)
Definition geom_compare (g h : Geometry) : comparison :=
  match g, h with
  | Point x y, Point x' y' => coord_compare (x, y) (x', y')
  | Point _ _, Polygon _ => Lt
  | Polygon _, Point _ _ => Gt
  | Polygon s, Polygon s' => lex_compare coord_compare s s'
  end.

(** The order of the cells of a column (ascending, missing values last).
    Cells of one kind compare as in Python; the order between kinds is only
    there to make the comparison total: [sort_values] refuses a column that
    mixes kinds. *)
Definition value_compare (a b : value) : comparison :=
  match a, b with
  | VBool x, VBool y => Bool.compare x y
  | VInt x, VInt y => Z.compare x y
  | VFloat x, VFloat y => Rcompare x y
  | VStr x, VStr y => String.compare x y
  | VGeom x, VGeom y => geom_compare x y
  | _, _ => Nat.compare (kind_rank a) (kind_rank b)
  end.

(** Lexicographic order of key tuples. *)
Definition key_compare (k1 k2 : list value) : comparison :=
  lex_compare value_compare k1 k2.

(** Equality of join keys: missing values match each other and an integer
    matches the float of the same value. *)
Definition key_eqb (a b : value) : bool :=
  match a, b with
  | VInt x, VInt y => Z.eqb x y
  | VFloat x, VFloat y => if Req_dec_T x y then true else false
  | VInt x, VFloat y | VFloat y, VInt x => if Req_dec_T (IZR x) y then true else false
  | VStr x, VStr y => String.eqb x y
  | VBool x, VBool y => Bool.eqb x y
  | VNaN, VNaN => true
  | VGeom g, VGeom h =>
      match geom_compare g h with
      | Eq => true
      | _ => false
      end
  | _, _ => false
  end.

Definition add_suffix (others : list string) (suffix : string) (c : string) : string :=
  if existsb (String.eqb c) others then c +:+ suffix else c.

(** [pd.merge(left, right, left_on=, right_on=, suffixes=)], an inner join
    on one key column: the rows follow the order of the left frame, each
    followed by its matches in the order of the right frame; a column name
    the two frames share gets the suffixes.  When both key columns have the
    same name the key is kept once, as with [on=]. *)
Definition merge (left right : DataFrame) (left_on right_on : string)
    (suffixes : string * string) : result DataFrame :=
  match index_of left_on (columns left), index_of right_on (columns right) with
  | None, _ => Raise (KeyError left_on)
  | _, None => Raise (KeyError right_on)
  | Some i, Some j =>
      let same_key := String.eqb left_on right_on in
      let keep_r := map (fun c => negb (same_key && String.eqb c right_on))
                        (columns right) in
      let rcols := mask keep_r (columns right) in
      let lcols := if same_key
                   then List.filter (fun c => negb (String.eqb c left_on)) (columns left)
                   else columns left in
      let cols :=
        map (fun c => if same_key && String.eqb c left_on then c
                      else add_suffix rcols (fst suffixes) c) (columns left)
        ++ map (add_suffix lcols (snd suffixes)) rcols in
      Ok (mkDF cols
            (flat_map (fun l =>
               map (fun r => l ++ mask keep_r r)
                   (List.filter (fun r => key_eqb (cell i l) (cell j r)) (rows right)))
               (rows left)))
  end.

(** *** Sorting *)

Definition key_leb (k1 k2 : list value) : bool :=
  match key_compare k1 k2 with
  | Gt => false
  | _ => true
  end.

Definition key_of (idx : list nat) (row : list value) : list value :=
  map (fun i => cell i row) idx.

(** Stable insertion of a row in front of a sorted list: the row goes before
    the rows that come later in the frame and have an equal key. *)
Fixpoint insert_row (idx : list nat) (r : list value) (l : list (list value))
  : list (list value) :=
  match l with
  | [] => [r]
  | r' :: l' =>
      if key_leb (key_of idx r) (key_of idx r') then r :: l
      else r' :: insert_row idx r l'
  end.

Definition sort_rows (idx : list nat) (l : list (list value)) : list (list value) :=
  fold_right (insert_row idx) [] l.

Definition is_nan (v : value) : bool :=
  match v with
  | VNaN => true
  | _ => false
  end.

(** The cells of a column that are present all have the same kind. *)
Definition homogeneous (col : list value) : bool :=
  match List.filter (fun v => negb (is_nan v)) col with
  | [] => true
  | v :: vs => forallb (fun u => (kind_rank u =? kind_rank v)%nat) vs
  end.

Definition count_occ_str (name : string) (cols : list string) : nat :=
  length (List.filter (String.eqb name) cols).

(** The position of a sort or group label: the label must name exactly one
    column. *)
Definition label_index (df : DataFrame) (name : string) : result nat :=
  match index_of name (columns df) with
  | None => Raise (KeyError name)
  | Some i =>
      if (count_occ_str name (columns df) =? 1)%nat then Ok i
      else Raise (ValueError "The column label is not unique")
  end.

(** [df.sort_values(by)], ascending with missing values last.  The sort is
    stable; where the keys are all the columns of the frame, rows with equal
    keys are equal and the order among them is not observable. *)
Definition sort_values (df : DataFrame) (by_ : list string) : result DataFrame :=
  idx ← mapR (fun name =>
                i ← label_index df name;
                if homogeneous (map (cell i) (rows df)) then Ok i
                else Raise TypeError) by_;
  Ok (mkDF (columns df) (sort_rows idx (rows df))).

(** [pd.concat(frames)] for frames with the same columns in the same order:
    the rows one after the other.  An empty list raises. *)
Definition concat (frames : list DataFrame) : result DataFrame :=
  match frames with
  | [] => Raise (ValueError "No objects to concatenate")
  | f :: _ => Ok (mkDF (columns f) (flat_map rows frames))
  end.

(** [df[name] = v] for a scalar [v]. *)
Definition setitem_scalar (df : DataFrame) (name : string) (v : value)
  : result DataFrame :=
  setitem df name (replicate (len df) v).

(** *** Grouping *)

Fixpoint insert_group (k : list value) (r : list value)
    (gs : list (list value * list (list value)))
  : list (list value * list (list value)) :=
  match gs with
  | [] => [(k, [r])]
  | (k', rs) :: gs' =>
      match key_compare k k' with
      | Eq => (k', rs ++ [r]) :: gs'
      | Lt => (k, [r]) :: gs
      | Gt => (k', rs) :: insert_group k r gs'
      end
  end.

(** [df.groupby(by)]: the groups in ascending order of their key, each with
    its rows in the order of the frame; a row with a missing key cell is in
    no group. *)
Definition groupby (df : DataFrame) (by_ : list string)
  : result (list (list value * list (list value))) :=
  idx ← mapR (label_index df) by_;
  Ok (fold_left (fun gs r =>
                   let k := key_of idx r in
                   if existsb is_nan k then gs else insert_group k r gs)
                (rows df) []).

(** [df.dropna()]. *)
Definition dropna (df : DataFrame) : DataFrame :=
  mkDF (columns df) (List.filter (fun r => negb (existsb is_nan r)) (rows df)).

(** A frame with its row labels: the result of an aggregation over groups,
    labelled by the group keys. *)
Record IndexedFrame : Type := mkIF {
  index_names : list string;
  index : list (list value);
  data : DataFrame
}.

Definition count_present (col : list value) : Z :=
  Z.of_nat (length (List.filter (fun v => negb (is_nan v)) col)).

(** [df.groupby(by=by_).agg(counts=(col, 'count'))]: per group, the number of
    cells of [col] that are present. *)
Definition groupby_count (df : DataFrame) (by_ : list string) (col : string)
    (out : string) : result IndexedFrame :=
  gs ← groupby df by_;
  match index_of col (columns df) with
  | None => Raise (KeyError col)
  | Some i =>
      Ok (mkIF by_ (map fst gs)
            (mkDF [out]
               (map (fun g => [VInt (count_present (map (cell i) (snd g)))]) gs)))
  end.

(** [df.groupby(by=by_).size().to_frame(name=out)]. *)
Definition groupby_size (df : DataFrame) (by_ : list string) (out : string)
  : result IndexedFrame :=
  gs ← groupby df by_;
  Ok (mkIF by_ (map fst gs)
        (mkDF [out] (map (fun g => [VInt (Z.of_nat (length (snd g)))]) gs))).

(** [series < n] for an integer [n], cell by cell. *)
Definition lt_int (n : Z) (v : value) : result value :=
  match v with
  | VInt c => Ok (VBool (c <? n)%Z)
  | VFloat r => Ok (VBool (if Rlt_dec r (IZR n) then true else false))
  | VBool b => Ok (VBool ((if b then 1 else 0) <? n)%Z)
  | VNaN => Ok (VBool false)
  | VStr _ | VGeom _ => Raise TypeError
  end.

(** [pd.DataFrame(array, columns=names)] for a two-dimensional array. *)
Definition from_array (array : list (list value)) (names : list string)
  : result DataFrame :=
  if forallb (fun r => (length r =? length names)%nat) array
  then Ok (mkDF names array)
  else Raise (ValueError "Shape of passed values does not match the columns").

End pd.

(** ** Python strings *)

Module str.

Definition endswith (s suffix : string) : bool :=
  String.prefix (String.rev suffix) (String.rev s).

Fixpoint dropwhile_in (chars : list ascii) (l : list ascii) : list ascii :=
  match l with
  | [] => []
  | a :: l' =>
      if existsb (Ascii.eqb a) chars then dropwhile_in chars l' else l
  end.

(** [s.rstrip(chars)]: removes trailing characters that belong to [chars]. *)
Definition rstrip (s chars : string) : string :=
  string_of_list_ascii
    (List.rev (dropwhile_in (list_ascii_of_string chars)
                 (List.rev (list_ascii_of_string s)))).

End str.

(** ** The world: shared objects, files and observable events *)

Definition ref := nat.

Inductive file_data : Type :=
| Text (s : string)
| Table (df : pd.DataFrame).

Inductive event : Type :=
| LogInfo (msg : string)
| LogWarning (msg : string)
| LogError (msg : string)
| KMeansFit (X : list (list value)) (n_clusters : Z)
| ReadFile (path : string)
| WriteFile (path : string)
| SpatialJoin (n_points : nat)
| StopCheck.

Record world : Type := mkWorld {
  heap : list pd.DataFrame;
  files : gmap string file_data;
  trace : list event
}.

Definition M (A : Type) : Type := world -> world * result A.

#[export] Instance M_ret : MRet M := fun A a w => (w, Ok a).
#[export] Instance M_bind : MBind M := fun A B k m w =>
  match m w with
  | (w', Ok a) => k a w'
  | (w', Raise e) => (w', Raise e)
  end.

Definition lift {A} (r : result A) : M A := fun w => (w, r).
Definition raise {A} (e : exn) : M A := fun w => (w, Raise e).

Definition load (r : ref) : M pd.DataFrame := fun w =>
  match heap w !! r with
  | Some df => (w, Ok df)
  | None => (w, Raise ReferenceError)
  end.

Definition store (r : ref) (df : pd.DataFrame) : M unit := fun w =>
  (mkWorld (<[r:=df]> (heap w)) (files w) (trace w), Ok tt).

Definition alloc (df : pd.DataFrame) : M ref := fun w =>
  (mkWorld (heap w ++ [df]) (files w) (trace w), Ok (length (heap w))).

Definition emit (e : event) : M unit := fun w =>
  (mkWorld (heap w) (files w) (trace w ++ [e]), Ok tt).

Fixpoint mapM {A B} (f : A -> M B) (l : list A) : M (list B) :=
  match l with
  | [] => mret []
  | a :: l' => b ← f a; bs ← mapM f l'; mret (b :: bs)
  end.

(** [df[name] = vals] on a shared frame. *)
Definition setitem (df : ref) (name : string) (vals : list value) : M unit :=
  f ← load df; f' ← lift (pd.setitem f name vals); store df f'.

(** [df[name].values] on a shared frame. *)
Definition getitem (df : ref) (name : string) : M (list value) :=
  f ← load df; lift (pd.getitem f name).

(** *** Files *)

Definition is_file (path : string) : M bool := fun w =>
  (w, Ok (bool_decide (is_Some (files w !! path)))).

Definition write_file (path : string) (f : file_data) : M unit := fun w =>
  (mkWorld (heap w) (<[path:=f]> (files w)) (trace w ++ [WriteFile path]), Ok tt).

(** [pd.read_csv], [pd.read_feather], [gpd.read_file]: the table stored at
    [path].  The text of the file formats is not modelled: a table is read
    back as it was written. *)
Definition read_table (path : string) : M pd.DataFrame := fun w =>
  (mkWorld (heap w) (files w) (trace w ++ [ReadFile path]),
   match files w !! path with
   | Some (Table df) => Ok df
   | Some (Text _) => Raise EmptyDataError
   | None => Raise (FileNotFoundError path)
   end).
(** ** tasks/distance.py *)

Module distance.
Local Open Scope R_scope.

(** [np.radians]. *)
Definition radians (deg : R) : R := deg * PI / 180.

Definition convert_to_cartesian (lon lat elevation : R) : R * R * R :=
  let earth_radius := 6378137 in
  let lat := radians lat in
  let lon := radians lon in
  let R := earth_radius + elevation in
  let x := R * cos lat * cos lon in
  let y := R * cos lat * sin lon in
  let z := R * sin lat in
  (x, y, z).


(** [scipy.spatial.distance.cdist(XA, XB, metric='euclidean')]: the two
    arguments are rectangular arrays of the same width. *)
Definition euclidean (u v : list R) : R :=
  sqrt (fold_right Rplus 0 (zip_with (fun a b => (a - b) * (a - b)) u v)).

Definition cdist (XA XB : list (list R)) : list (list R) :=
  map (fun a => map (euclidean a) XB) XA.

(** [ndarray.argmin] along a row: the first position of the minimum. *)
Fixpoint argmin_from (best_i : nat) (best : R) (i : nat) (row : list R) : nat :=
  match row with
  | [] => best_i
  | d :: row' =>
      if Rlt_dec d best then argmin_from i d (S i) row'
      else argmin_from best_i best (S i) row'
  end.

Definition argmin (row : list R) : nat :=
  match row with
  | [] => O
  | d :: row' => argmin_from O d 1%nat row'
  end.

(** [ndarray.min] along a row. *)
Definition amin (row : list R) : R :=
  match row with
  | [] => 0
  | d :: row' => fold_left (fun m x => if Rlt_dec x m then x else m) row' d
  end.

(** Both reductions raise on a row of length zero. *)
Definition find_nearest_facility (location_xy facility_xy : list (list R))
  : result (list nat * list R) :=
  let distances := cdist location_xy facility_xy in
  match facility_xy with
  | [] => Raise (ValueError "attempt to get argmin of an empty sequence")
  | _ =>
      let nearest_facility_indices := map argmin distances in
      Ok (nearest_facility_indices, map amin distances)
  end.

(** The float of a cell.  A missing value has no real number: the numerical
    model stops there (the frames that reach these kernels went through
    [dropna]). *)
Definition to_float (v : value) : result R :=
  match v with
  | VInt z => Ok (IZR z)
  | VFloat r => Ok r
  | VBool b => Ok (if b then 1 else 0)
  | VStr _ | VGeom _ => Raise TypeError
  | VNaN => Raise (ValueError "missing value")
  end.

(** [convert_to_cartesian] on two arrays of the same length, with the
    default elevation. *)
Definition convert_to_cartesian_values (lon lat : list R)
  : list R * list R * list R :=
  let xyz := zip_with (fun lo la => convert_to_cartesian lo la 0) lon lat in
  (map (fun p => fst (fst p)) xyz, map (fun p => snd (fst p)) xyz, map snd xyz).

(** [x ** p] for [x >= 0]. *)
Definition fpow (x p : R) : R := if Req_dec_T x 0 then 0 else Rpower x p.

(** [scipy.spatial.distance.minkowski(u, v, p)]. *)
Definition minkowski (u v : list R) (p : R) : R :=
  fpow (fold_right Rplus 0 (zip_with (fun a b => fpow (Rabs (a - b)) p) u v)) (1 / p).

Definition row_float (df : pd.DataFrame) (row : list value) (name : string)
  : result R :=
  match pd.index_of name (pd.columns df) with
  | Some i => to_float (pd.cell i row)
  | None => Raise (KeyError name)
  end.

Definition calculate_minkowski_from_cartesian
    (df_locations df_facilities : pd.DataFrame) (left_on right_on : string)
    (p : R) (distance_col : string) : result pd.DataFrame :=
  let suffixes := ("_loc", "_facility") in
  df_merged ← pd.merge df_locations df_facilities left_on right_on suffixes;
  dist ← mapR (fun row =>
                 xl ← row_float df_merged row "x_loc";
                 yl ← row_float df_merged row "y_loc";
                 zl ← row_float df_merged row "z_loc";
                 xf ← row_float df_merged row "x_facility";
                 yf ← row_float df_merged row "y_facility";
                 zf ← row_float df_merged row "z_facility";
                 Ok (VFloat (minkowski [xl; yl; zl] [xf; yf; zf] p)))
              (pd.rows df_merged);
  df_merged ← pd.setitem df_merged distance_col dist;
  let df_merged :=
    pd.mkDF (map (fun col => if str.endswith col "_loc"
                             then str.rstrip col "_loc" else col)
                 (pd.columns df_merged))
            (pd.rows df_merged) in
  let cols_to_keep := pd.columns df_locations ++ [distance_col] in
  pd.select df_merged cols_to_keep.

Definition calculate_distance_df (df : ref) (xy_cols : list string)
    (df2 : ref) (xy_cols2 : list string) (col_prefix id_col : string) : M ref :=
  f ← load df;
  f2 ← load df2;
  if (pd.len f =? 0)%nat || (pd.len f2 =? 0)%nat then mret df
  else
    lon_col ← lift (list_get xy_cols 0);
    lon ← getitem df lon_col;
    lat_col ← lift (list_get xy_cols 1);
    lat ← getitem df lat_col;
    lat ← lift (mapR to_float lat);
    lon ← lift (mapR to_float lon);
    let xy := convert_to_cartesian_values lon lat in
    setitem df "x" (map VFloat (fst (fst xy)));;
    setitem df "y" (map VFloat (snd (fst xy)));;
    setitem df "z" (map VFloat (snd xy));;
    lon_col2 ← lift (list_get xy_cols2 0);
    lon2 ← getitem df2 lon_col2;
    lat_col2 ← lift (list_get xy_cols2 1);
    lat2 ← getitem df2 lat_col2;
    lat2 ← lift (mapR to_float lat2);
    lon2 ← lift (mapR to_float lon2);
    let xy2 := convert_to_cartesian_values lon2 lat2 in
    setitem df2 "x" (map VFloat (fst (fst xy2)));;
    setitem df2 "y" (map VFloat (snd (fst xy2)));;
    setitem df2 "z" (map VFloat (snd xy2));;
    f ← load df;
    xyz ← lift (pd.select f ["x"; "y"; "z"]);
    xy_ser ← lift (mapR (mapR to_float) (pd.rows xyz));
    f2 ← load df2;
    xyz2 ← lift (pd.select f2 ["x"; "y"; "z"]);
    xy_ser2 ← lift (mapR (mapR to_float) (pd.rows xyz2));
    nearest ← lift (find_nearest_facility xy_ser xy_ser2);
    let nearest_indices := fst nearest in
    let distances := snd nearest in
    ids ← getitem df2 id_col;
    nearest_ids ← lift (mapR (list_get ids) nearest_indices);
    let assigned_id_col := col_prefix +:+ "_assigned_id" in
    setitem df assigned_id_col nearest_ids;;
    setitem df (col_prefix +:+ "_euclidean") (map VFloat distances);;
    f ← load df;
    f2 ← load df2;
    merged ← lift (calculate_minkowski_from_cartesian f f2 assigned_id_col id_col
                     (154 / 100) (col_prefix +:+ "_minkowski"));
    res ← lift (pd.drop merged ["x"; "y"; "z"]);
    alloc res.

End distance.

(** ** config/config.py: the sections of the configuration the core reads *)

Module config.

Record AdmPointsFile : Type := mkAdmPointsFile {
  file : string;
  adm_cols : list string;
  xy_cols : list string
}.

Record ResultsAdmPointsFile : Type := mkResultsAdmPointsFile {
  points_file :> AdmPointsFile;
  data_cols : list string
}.

Record Facilities : Type := mkFacilities {
  facilities_section :> ResultsAdmPointsFile;
  n_facilities : Z
}.

Record ResultsClusteredHouseholds : Type := mkResultsClusteredHouseholds {
  clusters_section :> ResultsAdmPointsFile;
  centers_file : string;
  counts_file : string
}.

Record Args : Type := mkArgs {
  threshold_households : Z;
  threshold_village_perc : Z
}.

(** [raise_if_stopped] polls the control file of the run: it is an action of
    the environment, which either returns or raises [InterruptedError]. *)
Record Inputs : Type := mkInputs {
  households : AdmPointsFile;
  village_centers : AdmPointsFile;
  raise_if_stopped : M unit
}.

Record Results : Type := mkResults {
  clusters : ResultsClusteredHouseholds;
  facilities : Facilities
}.

Record Config : Type := mkConfig {
  args : Args;
  inputs : Inputs;
  results : Results
}.



End config.

(** ** utils/spatial.py *)

Module spatial.

(** A fitted [sklearn.cluster.KMeans]. *)
Record KMeans : Type := mkKMeans {
  labels_ : list Z;
  cluster_centers_ : list (list R);
  n_iter_ : Z;
  max_iter : Z
}.

(** The keyword arguments the callers pass on to [KMeans]. *)
Record kwargs : Type := mkKwargs {
  init : option (list (list value));
  n_init : option Z
}.

(** [KMeans(n_clusters=n, **kwargs).fit(X)]: the fit is the library's; it
    raises on data it cannot cluster. *)
Definition fit_fn : Type :=
  list (list value) -> Z -> kwargs -> result KMeans.

(** [spatial.geom_col]. *)
Definition geom_col : string := "geometry".

Definition point_of (a b : value) : result value :=
  match a, b with
  | VNaN, _ | _, VNaN => Ok VNaN
  | _, _ => x ← distance.to_float a; y ← distance.to_float b; Ok (VGeom (Point x y))
  end.

(** [xy_to_gdf]: the frame with a point geometry per row, without the rows
    that have a missing cell. *)
Definition xy_to_gdf (df : pd.DataFrame) (xy_cols : list string)
  : result pd.DataFrame :=
  x0 ← list_get xy_cols 0;
  x ← pd.getitem df x0;
  y0 ← list_get xy_cols 1;
  y ← pd.getitem df y0;
  geometry ← mapR (fun p => point_of (fst p) (snd p)) (combine x y);
  gdf ← pd.setitem df geom_col geometry;
  Ok (pd.dropna gdf).

Section Join.
(** The predicate of the spatial join ("within"), decided by the geometry
    library. *)
Variable within : Geometry -> Geometry -> bool.

Definition matches (l r : value) : bool :=
  match l, r with
  | VGeom g, VGeom h => within g h
  | _, _ => false
  end.

(** [gpd.sjoin(left, right, predicate)], an inner join: one row for every
    pair of a left row and a right row whose geometries satisfy the
    predicate, in the order of the left frame; the row carries the left
    cells, the position of the right row and the right cells but its
    geometry. *)
Definition sjoin (left right : pd.DataFrame) : result pd.DataFrame :=
  match pd.index_of geom_col (pd.columns left),
        pd.index_of geom_col (pd.columns right) with
  | None, _ | _, None => Raise (AttributeError geom_col)
  | Some i, Some j =>
      let r_attrs := pd.drop_cols right [geom_col] in
      let rcols := pd.columns r_attrs in
      let cols :=
        map (pd.add_suffix rcols "_left") (pd.columns left)
        ++ ["index_right"]
        ++ map (pd.add_suffix (pd.columns left) "_right") rcols in
      let indexed := combine (seq 0 (pd.len right))
                             (combine (pd.rows right) (pd.rows r_attrs)) in
      Ok (pd.mkDF cols
            (flat_map (fun l =>
               map (fun r => l ++ [VInt (Z.of_nat (fst r))] ++ snd (snd r))
                   (List.filter (fun r => matches (pd.cell i l) (pd.cell j (fst (snd r))))
                      indexed))
               (pd.rows left)))
  end.

Definition join_xy_shapes (df : pd.DataFrame) (xy_cols : list string)
    (gdf : pd.DataFrame) : M pd.DataFrame :=
  emit (SpatialJoin (pd.len df));;
  gdf_pts ← lift (xy_to_gdf df xy_cols);
  lift (sjoin gdf_pts gdf).

End Join.

Section Fit.
Variable fit : fit_fn.

Definition kmeans_fit (X : list (list value)) (n_clusters : Z) (kw : kwargs)
  : M KMeans :=
  emit (KMeansFit X n_clusters);;
  lift (fit X n_clusters kw).

End Fit.
End spatial.

(** ** utils/util.py *)

Module util.

(** [lists_to_dict]: a later pair replaces the value of an equal key. *)
Fixpoint dict_set (k v : string) (d : list (string * string))
  : list (string * string) :=
  match d with
  | [] => [(k, v)]
  | (k', v') :: d' =>
      if String.eqb k' k then (k', v) :: d' else (k', v') :: dict_set k v d'
  end.

Definition lists_to_dict (list1 list2 : list string) : list (string * string) :=
  fold_left (fun d kv => dict_set (fst kv) (snd kv) d) (combine list1 list2) [].

Definition dict_get (d : list (string * string)) (k : string) : option string :=
  snd <$> List.find (fun kv => String.eqb (fst kv) k) d.

(** [rename_df_cols]: the renamed frame.  (The call also drops the columns
    in the way from the frame it is given.) *)
Definition rename_df_cols (df : pd.DataFrame) (from_cols to_cols : list string)
  : result pd.DataFrame :=
  if forallb (pd.has_col df) from_cols then
    let cols := List.filter (fun kv => negb (String.eqb (fst kv) (snd kv)))
                  (lists_to_dict from_cols to_cols) in
    let to_drop := List.filter (pd.has_col df) (map snd cols) in
    let df := pd.drop_cols df to_drop in
    Ok (pd.mkDF (map (fun c => default c (dict_get cols c)) (pd.columns df))
                (pd.rows df))
  else Raise (AssertionError "Columns not found").

End util.

(** ** tasks/clustering.py *)

Module clustering.
Import config.

Definition or_default {A} (o : option A) (falsy : A -> bool) (d : A) : A :=
  match o with
  | Some a => if falsy a then d else a
  | None => d
  end.

Definition column_at (k : nat) (array : list (list R)) : result (list R) :=
  mapR (fun r => list_get r k) array.

Section Clustering.
Variable fit : spatial.fit_fn.

Definition cluster_points (df_points df_centers : ref) (xy_cols : list string)
    (cluster_col : option string) (center_xy_cols : option (list string))
  : M bool :=
  let cluster_col := or_default cluster_col (String.eqb "") "cluster" in
  let center_xy_cols :=
    or_default center_xy_cols (fun l => bool_decide (l = []))
      [cluster_col +:+ "_lon"; cluster_col +:+ "_lat"] in
  fp ← load df_points;
  points ← lift (pd.select fp xy_cols);
  fc ← load df_centers;
  centers ← lift (pd.select fc xy_cols);
  let n_clusters := Z.of_nat (pd.len centers) in
  kmeans_model ← spatial.kmeans_fit fit (pd.rows points) n_clusters
                    (spatial.mkKwargs (Some (pd.rows centers)) (Some 1%Z));
  setitem df_points cluster_col (map VInt (spatial.labels_ kmeans_model));;
  c0 ← lift (column_at 0 (spatial.cluster_centers_ kmeans_model));
  c1 ← lift (column_at 1 (spatial.cluster_centers_ kmeans_model));
  k0 ← lift (list_get center_xy_cols 0);
  setitem df_centers k0 (map VFloat c0);;
  k1 ← lift (list_get center_xy_cols 1);
  setitem df_centers k1 (map VFloat c1);;
  let converged :=
    (spatial.n_iter_ kmeans_model <? spatial.max_iter kmeans_model)%Z in
  mret converged.

End Clustering.

(** The state of a [ClusteredHouseholds] object; its two frames are shared
    objects, the counts table is its own. *)
Record ClusteredHouseholds : Type := mkClusteredHouseholds {
  cfg : Config;
  location : string;
  _valid : bool;
  _converged : bool;
  _df_counts : option pd.IndexedFrame;
  _df_clusters : ref;
  _df_centers : ref
}.

Definition cluster_col (self : ClusteredHouseholds) : result string :=
  list_get (data_cols (clusters (results (cfg self)))) 0.

Definition center_xy_cols (self : ClusteredHouseholds) : result (list string) :=
  c ← cluster_col self; Ok [c +:+ "_lon"; c +:+ "_lat"].

Definition _prep_centers (self : ClusteredHouseholds) : M ClusteredHouseholds :=
  let vc := village_centers (inputs (cfg self)) in
  c ← lift (cluster_col self);
  cxy ← lift (center_xy_cols self);
  let cc_cols := [c] ++ adm_cols vc ++ xy_cols vc ++ cxy in
  f ← load (_df_centers self);
  f' ← lift (pd.select f cc_cols);
  r ← alloc f';
  mret (mkClusteredHouseholds (cfg self) (location self) (_valid self)
          (_converged self) (_df_counts self) (_df_clusters self) r).

Definition _prep_clusters (self : ClusteredHouseholds) : M ClusteredHouseholds :=
  let vc := village_centers (inputs (cfg self)) in
  let cs := clusters (results (cfg self)) in
  name_col ← lift (match last (adm_cols vc) with
                   | Some n => Ok n
                   | None => Raise IndexError
                   end);
  joined ←
    (if _converged self then
       c ← lift (cluster_col self);
       fc ← load (_df_centers self);
       df_cc ← lift (pd.select fc [c; name_col]);
       f ← load (_df_clusters self);
       lift (pd.merge f df_cc c c ("_x", "_y"))
     else
       c ← lift (cluster_col self);
       vals ← getitem (_df_clusters self) c;
       setitem (_df_clusters self) name_col vals;;
       load (_df_clusters self));
  c ← lift (cluster_col self);
  let sel_cols := adm_cols cs ++ [c] ++ xy_cols cs in
  c ← lift (cluster_col self);
  let sort_cols := [c] ++ adm_cols cs ++ xy_cols cs in
  sel ← lift (pd.select joined sel_cols);
  sorted ← lift (pd.sort_values sel sort_cols);
  r ← alloc sorted;
  mret (mkClusteredHouseholds (cfg self) (location self) (_valid self)
          (_converged self) (_df_counts self) r (_df_centers self)).

Definition _calc_counts (self : ClusteredHouseholds) : M ClusteredHouseholds :=
  let cs := clusters (results (cfg self)) in
  let cols := adm_cols cs ++ data_cols cs in
  f ← load (_df_clusters self);
  x0 ← lift (list_get (xy_cols cs) 0);
  counts ← lift (pd.groupby_count f cols x0 "counts");
  c ← lift (pd.getitem (pd.data counts) "counts");
  small ← lift (mapR (pd.lt_int (threshold_households (args (cfg self)))) c);
  d ← lift (pd.setitem (pd.data counts) "small" small);
  mret (mkClusteredHouseholds (cfg self) (location self) (_valid self)
          (_converged self)
          (Some (pd.mkIF (pd.index_names counts) (pd.index counts) d))
          (_df_clusters self) (_df_centers self)).

Definition finalize (self : ClusteredHouseholds) (converged : bool)
  : M ClusteredHouseholds :=
  let self := mkClusteredHouseholds (cfg self) (location self) (_valid self)
                converged (_df_counts self) (_df_clusters self)
                (_df_centers self) in
  self ← _prep_centers self;
  self ← _prep_clusters self;
  _calc_counts self.

End clustering.

(** ** flows.py *)

Module flows.

(** The counts table of [ScientificWorkflow.check_thresholds]: the households
    of the clusters file per cluster and the small-village flag. *)
Definition check_thresholds_df_cnt (df : pd.DataFrame) (columns : list string)
    (threshold_households : Z) : result pd.IndexedFrame :=
  df_cnt ← pd.groupby_size df columns "counts";
  c ← pd.getitem (pd.data df_cnt) "counts";
  small ← mapR (pd.lt_int threshold_households) c;
  d ← pd.setitem (pd.data df_cnt) "small" small;
  Ok (pd.mkIF (pd.index_names df_cnt) (pd.index df_cnt) d).

End flows.

(** ** tasks/placement.py *)

Module placement.
Import config.

Section Placement.
Variable fit : spatial.fit_fn.
(** [spatial.get_plus_code], the Open Location Code of a point. *)
Variable get_plus_code : R -> R -> string.

(** The facility points of one cluster: the k-means centroids of its
    households when there are at least three, the households themselves
    otherwise. *)
Definition facility_centers (cfg : Config) (location : string)
    (X : list (list value)) : M (list (list value)) :=
  if (3 <=? length X)%nat then
    kmeans_model ← spatial.kmeans_fit fit X
                      (n_facilities (facilities (results cfg)))
                      (spatial.mkKwargs None None);
    let centers := map (map VFloat) (spatial.cluster_centers_ kmeans_model) in
    (if (spatial.n_iter_ kmeans_model =? spatial.max_iter kmeans_model)%Z
     then emit (LogWarning
                  ("Clustering facilities didn't converge for: " +:+ location))
     else mret tt);;
    mret centers
  else mret X.

Definition set_adm_cols (df : pd.DataFrame) (cols : list string)
    (vals : list value) : result pd.DataFrame :=
  fold_left (fun acc cv => d ← acc; pd.setitem_scalar d (fst cv) (snd cv))
            (combine cols vals) (Ok df).

(** The body of the loop over the groups: [i] is the key of the group and
    [dat] its rows. *)
Definition place_cluster (cfg : Config) (location : string)
    (i : list value) (dat : pd.DataFrame) : M pd.DataFrame :=
  let res := results cfg in
  let xy_cols := xy_cols (clusters res) in
  village_col ← lift (list_get (data_cols (facilities res)) 0);
  x0 ← lift (list_get xy_cols 0);
  x ← lift (pd.getitem dat x0);
  y0 ← lift (list_get xy_cols 1);
  y ← lift (pd.getitem dat y0);
  let X := zip_with (fun a b => [a; b]) x y in
  centers ← facility_centers cfg location X;
  df ← lift (pd.from_array centers xy_cols);
  village ← lift (match last i with
                  | Some v => Ok v
                  | None => Raise IndexError
                  end);
  df ← lift (pd.setitem_scalar df village_col village);
  let adm_vals := removelast i in
  lift (set_adm_cols df (adm_cols (clusters res)) adm_vals).

Definition row_attr (df : pd.DataFrame) (row : list value) (name : string)
  : result R :=
  match pd.index_of name (pd.columns df) with
  | Some i => distance.to_float (pd.cell i row)
  | None => Raise (AttributeError name)
  end.

Definition place_facilities (cfg : Config) (df_clusters : ref)
    (location : string) : M ref :=
  let res := results cfg in
  cluster_col ← lift (list_get (data_cols (clusters res)) 0);
  village_col ← lift (list_get (data_cols (facilities res)) 0);
  let adm_cols := adm_cols (clusters res) in
  let xy_cols := xy_cols (clusters res) in
  let clusters_cols := adm_cols ++ [cluster_col] in
  vals ← getitem df_clusters cluster_col;
  setitem df_clusters village_col vals;;
  f ← load df_clusters;
  groups ← lift (pd.groupby f clusters_cols);
  optimal_facilities ←
    mapM (fun g => place_cluster cfg location (fst g)
                     (pd.mkDF (pd.columns f) (snd g))) groups;
  all ← lift (pd.concat optimal_facilities);
  df_of ← lift (pd.select all (adm_cols ++ [village_col] ++ xy_cols));
  plus ← lift (mapR (fun r =>
                       lon ← row_attr df_of r "lon";
                       lat ← row_attr df_of r "lat";
                       Ok (VStr (get_plus_code lon lat)))
                    (pd.rows df_of));
  df_of ← lift (pd.setitem df_of "plus" plus);
  let unique_ids :=
    map (fun i : nat => VStr (location +:+ "_" +:+ pretty i))
        (seq 0 (pd.len df_of)) in
  df_of ← lift (pd.setitem df_of "facility_id" unique_ids);
  alloc df_of.

End Placement.
End placement.

(** ** data/inputs.py *)

Module inputs.
Import config.

Section Inputs.
Variable within : Geometry -> Geometry -> bool.

Definition chunk_size : N := 1000000.

(** [df.iloc[start:end]]. *)
Definition iloc (df : pd.DataFrame) (start end_ : N) : pd.DataFrame :=
  pd.mkDF (pd.columns df)
    (take (N.to_nat (end_ - start)) (drop (N.to_nat start) (pd.rows df))).

(** The loop over the chunks: [ps] are the chunk numbers still to do and
    [df_hh] the households joined so far. *)
Fixpoint join_chunks (stop_fn : M unit) (df_xy gdf_shp : pd.DataFrame)
    (hh_xy_cols hh_cols : list string) (point_count : N) (ps : list N)
    (df_hh : option pd.DataFrame) : M (option pd.DataFrame) :=
  match ps with
  | [] => mret df_hh
  | p :: ps' =>
      stop_fn;;
      let start := (p * chunk_size)%N in
      let end_ := N.min ((p + 1) * chunk_size) point_count in
      let df := iloc df_xy start end_ in
      gdf ← spatial.join_xy_shapes within df hh_xy_cols gdf_shp;
      df ← lift (pd.select gdf hh_cols);
      df_hh ← (match df_hh with
               | None => mret df
               | Some acc => lift (pd.concat [acc; df])
               end);
      join_chunks stop_fn df_xy gdf_shp hh_xy_cols hh_cols point_count ps'
        (Some df_hh)
  end.

Definition range (n : N) : list N := map N.of_nat (seq 0 (N.to_nat n)).

(** The households joined over all chunks, before they are validated. *)
Definition joined_households (gdf_shapes : pd.DataFrame) (adm_cols : list string)
    (df_xy : pd.DataFrame) (xy_cols hh_adm_cols hh_xy_cols : list string)
    (stop_fn : M unit) : M (N * option pd.DataFrame) :=
  let hh_cols := hh_adm_cols ++ hh_xy_cols in
  df_xy ← (if bool_decide (xy_cols = hh_xy_cols) then mret df_xy
           else lift (util.rename_df_cols df_xy xy_cols hh_xy_cols));
  gdf_shp ← lift (pd.select gdf_shapes (adm_cols ++ [spatial.geom_col]));
  gdf_shp ← (if bool_decide (adm_cols = hh_adm_cols) then mret gdf_shp
             else lift (util.rename_df_cols gdf_shp adm_cols hh_adm_cols));
  let point_count := N.of_nat (pd.len df_xy) in
  let chunk_count := (point_count / chunk_size)%N in
  df_hh ← join_chunks stop_fn df_xy gdf_shp hh_xy_cols hh_cols point_count
             (range (chunk_count + 1)) None;
  mret (point_count, df_hh).

Definition process_google_buildings (gdf_shapes : pd.DataFrame)
    (adm_cols : list string) (df_xy : pd.DataFrame)
    (xy_cols hh_adm_cols hh_xy_cols : list string) (stop_fn : M unit)
  : M pd.DataFrame :=
  let hh_cols := hh_adm_cols ++ hh_xy_cols in
  joined ← joined_households gdf_shapes adm_cols df_xy xy_cols hh_adm_cols
              hh_xy_cols stop_fn;
  let point_count := fst joined in
  match snd joined with
  | None => raise TypeError
  | Some df_hh =>
      if (N.of_nat (pd.len df_hh) <=? point_count)%N then
        let df_hh := pd.dropna df_hh in
        lift (pd.sort_values df_hh hh_cols)
      else raise (AssertionError "The number of households is too large.")
  end.

(** [DataInputs.process_buildings]; the message also reports the time the
    run took. *)
Definition process_buildings (cfg : Config) (gdf_shapes : pd.DataFrame)
    (adm_cols : list string) (df_xy : pd.DataFrame) (xy_cols : list string)
  : M pd.DataFrame :=
  df_hh ← process_google_buildings gdf_shapes adm_cols df_xy xy_cols
             (config.adm_cols (households (inputs cfg)))
             (config.xy_cols (households (inputs cfg)))
             (raise_if_stopped (inputs cfg));
  emit (LogInfo "Completed processing buildings.");;
  mret df_hh.

Definition prepare_households (cfg : Config) (buildings_file : string)
    (buildings_xy_cols : list string) (shapes_file : string)
    (shapes_adm_cols : list string) : M string :=
  let hh_file := file (households (inputs cfg)) in
  exists_ ← is_file hh_file;
  if exists_ : bool then
    emit (LogInfo "Skipping households prep, file already exists.");;
    mret hh_file
  else
    write_file hh_file (Text "");;
    gdf ← read_table shapes_file;
    df_xy ← (t ← read_table buildings_file; lift (pd.select t buildings_xy_cols));
    df ← process_buildings cfg gdf shapes_adm_cols df_xy buildings_xy_cols;
    write_file hh_file (Table df);;
    mret hh_file.

End Inputs.
End inputs.

(** ** tasks/outlines.py *)

Module outlines.
Import config.


End outlines.

(** ** Predicates used in the statements *)

Section Predicates.
Local Open Scope R_scope.


End Predicates.

(** Every row has one cell per column. *)
Definition wf (f : pd.DataFrame) : Prop :=
  Forall (fun r => length r = length (pd.columns f)) (pd.rows f).

(** [gains names f f']: [f'] is [f] after in-place assignments to the
    columns [names]: same rows, the old columns at their positions, the named
    columns present, every other column with its old cells. *)
Definition gains (names : list string) (f f' : pd.DataFrame) : Prop :=
  pd.len f' = pd.len f
  /\ pd.columns f `prefix_of` pd.columns f'
  /\ (forall c, c ∈ names -> pd.has_col f' c = true)
  /\ (forall c, c ∉ names -> pd.getitem f' c = pd.getitem f c).

(** [small_flags th t]: in the counts table [t] every cluster has an integer
    count and a boolean flag, and the flag is set exactly when the count is
    below [th]. *)
Definition small_flags (th : Z) (t : pd.IndexedFrame) : Prop :=
  exists cs ss,
    pd.getitem (pd.data t) "counts" = Ok cs
    /\ pd.getitem (pd.data t) "small" = Ok ss
    /\ length cs = length (pd.index t)
    /\ forall i, (i < length (pd.index t))%nat ->
         exists c b,
           cs !! i = Some (VInt c) /\ ss !! i = Some (VBool b)
           /\ (b = true <-> (c < th)%Z)
           /\ (c = th -> b = false)
           /\ (c = (th - 1)%Z -> b = true).

(** The fitting routine of the test suite: a fixed model that used nine of
    its ten iterations. *)
Definition mock_kmeans_fit : spatial.fit_fn := fun _ _ _ =>
  Ok (spatial.mkKMeans [0; 0; 1; 1; 1]%Z [[1; 1]; [5; 5]]%R 9 10).

(** A configuration in the shape of the default one: households labelled by
    one administrative column, villages by that column and their name,
    three households as the small-cluster threshold, one facility per
    cluster; the run is never stopped. *)
Definition example_cfg : config.Config :=
  config.mkConfig
    (config.mkArgs 3 25)
    (config.mkInputs
       (config.mkAdmPointsFile "inputs/households.csv" ["adm1"] ["lon"; "lat"])
       (config.mkAdmPointsFile "inputs/village_centers.csv" ["adm1"; "village"]
          ["lon"; "lat"])
       (mret tt))
    (config.mkResults
       (config.mkResultsClusteredHouseholds
          (config.mkResultsAdmPointsFile
             (config.mkAdmPointsFile "results/{location}/clustered_households.csv"
                ["adm1"; "village"] ["lon"; "lat"])
             ["cluster"])
          "results/{location}/cluster_centers.csv"
          "results/{location}/cluster_counts.csv")
       (config.mkFacilities
          (config.mkResultsAdmPointsFile
             (config.mkAdmPointsFile "results/{location}/optimal_facilities.csv"
                ["adm1"; "village"] ["lon"; "lat"])
             ["village"])
          1)).

(** Five clustered households, two in cluster 0 and three in cluster 1, and
    the two village centers with their centroids. *)
Definition example_clusters : pd.DataFrame :=
  pd.mkDF ["adm1"; "lon"; "lat"; "cluster"]
    [[VStr "A"; VInt 1; VInt 1; VInt 0];
     [VStr "A"; VInt 2; VInt 2; VInt 0];
     [VStr "A"; VInt 7; VInt 7; VInt 1];
     [VStr "A"; VInt 8; VInt 8; VInt 1];
     [VStr "A"; VInt 9; VInt 9; VInt 1]].

Definition example_centers : pd.DataFrame :=
  pd.mkDF ["adm1"; "village"; "lon"; "lat"; "cluster"; "cluster_lon"; "cluster_lat"]
    [[VStr "A"; VStr "north"; VInt 1; VInt 1; VInt 0; VInt 1; VInt 1];
     [VStr "A"; VStr "south"; VInt 9; VInt 9; VInt 1; VInt 8; VInt 8]].

(** [non_overlapping within shapes]: no point is within two rows of the
    shapes frame. *)
Definition non_overlapping (within : Geometry -> Geometry -> bool)
    (gdf_shapes : pd.DataFrame) : Prop :=
  forall g,
    (length (List.filter (fun r => existsb (spatial.matches within (VGeom g)) r)
               (pd.rows gdf_shapes)) <= 1)%nat.

Definition Rltb (x y : R) : bool := if Rlt_dec x y then true else false.

(** The join predicate on axis-aligned rectangles: a point is within the
    rectangle when it lies strictly between two of its corners in each
    coordinate. *)
Definition rect_within (g h : Geometry) : bool :=
  match g, h with
  | Point x y, Polygon shell =>
      existsb (fun v => Rltb (fst v) x) shell
      && existsb (fun v => Rltb x (fst v)) shell
      && existsb (fun v => Rltb (snd v) y) shell
      && existsb (fun v => Rltb y (snd v)) shell
  | _, _ => false
  end.

(** Two administrative rectangles, from (0,0) to (2,2) and from (0,0) to
    (3,3), that both contain the one building at (1,1). *)
Definition overlapping_shapes : pd.DataFrame :=
  pd.mkDF ["adm1"; "geometry"]
    [[VStr "A"; VGeom (Polygon [(0, 0); (2, 0); (2, 2); (0, 2)]%R)];
     [VStr "B"; VGeom (Polygon [(0, 0); (3, 0); (3, 3); (0, 3)]%R)]].

Definition single_shape : pd.DataFrame :=
  pd.mkDF ["adm1"; "geometry"]
    [[VStr "A"; VGeom (Polygon [(0, 0); (2, 0); (2, 2); (0, 2)]%R)]].

Definition one_building : pd.DataFrame :=
  pd.mkDF ["lon"; "lat"] [[VInt 1; VInt 1]].

(** The world after [prepare_households] found its output file. *)
Definition skipped (w : world) : world :=
  mkWorld (heap w) (files w)
    (trace w ++ [LogInfo "Skipping households prep, file already exists."]).

Definition len_opt (df : option pd.DataFrame) : nat :=
  match df with
  | Some d => pd.len d
  | None => O
  end.

(** [cells_from f f']: row by row, the cells of [f'] are cells of [f] or
    missing values. *)
Definition cells_from (f f' : pd.DataFrame) : Prop :=
  Forall2 (fun r r' => forall v, v ∈ r' -> v ∈ r \/ v = VNaN)
          (pd.rows f) (pd.rows f').

(** A three-way comparison that decides a total order. *)
Record TotalCmp {A : Type} (cmp : A -> A -> comparison) : Prop := mkTotalCmp {
  cmp_eq : forall a b, cmp a b = Eq -> a = b;
  cmp_refl : forall a, cmp a a = Eq;
  cmp_antisym : forall a b, cmp b a = CompOpp (cmp a b);
  cmp_trans : forall a b c, cmp a b = Lt -> cmp b c = Lt -> cmp a c = Lt
}.










(** * Properties *)

(** ** Cartesian conversion *)

Section CartesianFacts.
Local Open Scope R_scope.





End CartesianFacts.

(** ** Nearest facility *)

Section NearestFacts.
Local Open Scope R_scope.








End NearestFacts.

(** ** Reasoning about runs in the world monad *)

Section MonadFacts.

Lemma bind_Ok_inv {A B} (m : M A) (k : A -> M B) (w w' : world) (b : B) :
  (m ≫= k) w = (w', Ok b) ->
  exists a w1, m w = (w1, Ok a) /\ k a w1 = (w', Ok b).
Proof.
  unfold mbind, M_bind. destruct (m w) as [w1 [a | e]]; intros H.
  - eauto.
  - discriminate.
Qed.

Lemma ret_Ok_inv {A} (a b : A) (w w' : world) :
  (mret a : M A) w = (w', Ok b) -> w' = w /\ b = a.
Proof. unfold mret, M_ret. intros [= -> ->]. auto. Qed.

Lemma lift_Ok_inv {A} (r : result A) (w w' : world) (a : A) :
  lift r w = (w', Ok a) -> w' = w /\ r = Ok a.
Proof. unfold lift. intros [= -> ->]. auto. Qed.

Lemma load_Ok_inv (r : ref) (w w' : world) (f : pd.DataFrame) :
  load r w = (w', Ok f) -> w' = w /\ heap w !! r = Some f.
Proof.
  unfold load. destruct (heap w !! r); intros [= -> ->]; auto.
Qed.

Lemma getitem_Ok_inv (r : ref) (name : string) (w w' : world) (v : list value) :
  getitem r name w = (w', Ok v) ->
  w' = w /\ exists f, heap w !! r = Some f /\ pd.getitem f name = Ok v.
Proof.
  unfold getitem. intros H.
  apply bind_Ok_inv in H as (f & w1 & Hl & H).
  apply load_Ok_inv in Hl as [-> Hf].
  apply lift_Ok_inv in H as [-> Hg]. eauto.
Qed.

(** One in-place column assignment: the frame behind [r] is replaced, every
    other object, the files and the trace stay. *)
Lemma setitem_Ok_inv (r : ref) (name : string) (vals : list value)
    (w w' : world) (u : unit) :
  setitem r name vals w = (w', Ok u) ->
  exists f f',
    heap w !! r = Some f /\ pd.setitem f name vals = Ok f'
    /\ heap w' !! r = Some f'
    /\ (forall r', r' <> r -> heap w' !! r' = heap w !! r')
    /\ length (heap w') = length (heap w)
    /\ files w' = files w /\ trace w' = trace w.
Proof.
  unfold setitem. intros H.
  apply bind_Ok_inv in H as (f & w1 & Hl & H).
  apply load_Ok_inv in Hl as [-> Hf].
  apply bind_Ok_inv in H as (f' & w1 & Hs & H).
  apply lift_Ok_inv in Hs as [-> Hs].
  unfold store in H. injection H as <- _.
  exists f, f'. simpl.
  split; [exact Hf |]. split; [exact Hs |].
  split; [apply list_lookup_insert_eq; eapply lookup_lt_Some; eauto |].
  split; [intros r' Hr'; apply list_lookup_insert_ne; congruence |].
  split; [apply length_insert | auto].
Qed.

End MonadFacts.

Ltac bind_inv H a w1 Hs :=
  apply bind_Ok_inv in H as (a & w1 & Hs & H).

(** Steps that leave the world as it is. *)
Ltac pure_inv H a Hs :=
  let w1 := fresh "w" in
  bind_inv H a w1 Hs;
  first [ apply lift_Ok_inv in Hs as [-> Hs]
        | apply load_Ok_inv in Hs as [-> Hs]
        | apply getitem_Ok_inv in Hs as [-> Hs] ].

Ltac set_inv H w1 g g' Hg Hset Hg' Hother Hlen Hfiles Htrace :=
  let Hs := fresh "Hs" in
  let u := fresh "u" in
  bind_inv H u w1 Hs;
  apply setitem_Ok_inv in Hs
    as (g & g' & Hg & Hset & Hg' & Hother & Hlen & Hfiles & Htrace).

(** ** Column assignments on a frame *)

Section FrameFacts.

Lemma index_of_lt (name : string) (cols : list string) (i : nat) :
  pd.index_of name cols = Some i -> (i < length cols)%nat.
Proof.
  revert i. induction cols as [| c cols IH]; intros i; simpl; [discriminate |].
  destruct (String.eqb c name).
  - intros [= <-]. lia.
  - destruct (pd.index_of name cols) as [k |]; simpl; [| discriminate].
    intros [= <-]. specialize (IH k eq_refl). lia.
Qed.

Lemma index_of_inj (a b : string) (cols : list string) (i : nat) :
  pd.index_of a cols = Some i -> pd.index_of b cols = Some i -> a = b.
Proof.
  revert i. induction cols as [| c cols IH]; intros i; simpl; [discriminate |].
  destruct (String.eqb c a) eqn:Ea, (String.eqb c b) eqn:Eb.
  - apply String.eqb_eq in Ea, Eb. congruence.
  - intros [= <-]. destruct (pd.index_of b cols); discriminate.
  - intros H [= <-]. destruct (pd.index_of a cols); discriminate.
  - destruct (pd.index_of a cols) as [ka |], (pd.index_of b cols) as [kb |];
      simpl; try discriminate.
    intros [= <-] [= ->]. eauto.
Qed.

Lemma index_of_snoc (c name : string) (cols : list string) :
  c <> name ->
  pd.index_of c (cols ++ [name]) = pd.index_of c cols.
Proof.
  intros Hne. induction cols as [| d cols IH]; simpl.
  - destruct (String.eqb name c) eqn:E; [| reflexivity].
    apply String.eqb_eq in E. congruence.
  - destruct (String.eqb d c); [reflexivity | now rewrite IH].
Qed.

Lemma index_of_snoc_new (name : string) (cols : list string) :
  pd.index_of name cols = None ->
  pd.index_of name (cols ++ [name]) = Some (length cols).
Proof.
  induction cols as [| d cols IH]; simpl.
  - now rewrite String.eqb_refl.
  - destruct (String.eqb d name); [discriminate |].
    destruct (pd.index_of name cols); [discriminate |].
    intros _. now rewrite IH.
Qed.

Lemma has_col_true (f : pd.DataFrame) (c : string) :
  pd.has_col f c = true <-> exists v, pd.getitem f c = Ok v.
Proof.
  unfold pd.has_col, pd.getitem. rewrite bool_decide_eq_true.
  destruct (pd.index_of c (pd.columns f)); split.
  - eauto.
  - intros _. eauto.
  - intros [? ?]. discriminate.
  - intros [? ?]. discriminate.
Qed.

Lemma setitem_gains (f f' : pd.DataFrame) (name : string) (vals : list value) :
  wf f -> pd.setitem f name vals = Ok f' -> gains [name] f f' /\ wf f'.
Proof.
  intros Hwf. unfold pd.setitem.
  destruct (negb (length vals =? pd.len f)%nat) eqn:Elen; [discriminate |].
  apply negb_false_iff, Nat.eqb_eq in Elen. unfold pd.len in Elen.
  destruct (pd.index_of name (pd.columns f)) as [i |] eqn:Ei; intros [= <-].
  - (* the column exists: its cells are overwritten *)
    split; [split; [| split; [| split]] |].
    + unfold pd.len. simpl. rewrite length_zip_with. lia.
    + reflexivity.
    + intros c Hc. apply list_elem_of_singleton in Hc as ->.
      unfold pd.has_col. simpl. rewrite Ei. now apply bool_decide_eq_true.
    + intros c Hc. rewrite list_elem_of_singleton in Hc.
      unfold pd.getitem. simpl.
      destruct (pd.index_of c (pd.columns f)) as [k |] eqn:Ek; [| reflexivity].
      assert (k <> i) by (intros ->; apply Hc; eapply index_of_inj; eauto).
      f_equal. apply list_eq. intros n.
      rewrite !list_lookup_fmap, lookup_zip_with.
      destruct (pd.rows f !! n) as [r |] eqn:Er; simpl; [| reflexivity].
      destruct (vals !! n) as [v |] eqn:Ev; simpl.
      * unfold pd.cell. now rewrite list_lookup_insert_ne by congruence.
      * apply lookup_lt_Some in Er. apply lookup_ge_None in Ev. lia.
    + unfold wf in *. simpl. apply Forall_lookup. intros n r Hn.
      rewrite lookup_zip_with in Hn.
      destruct (pd.rows f !! n) as [r0 |] eqn:Er; simpl in Hn; [| discriminate].
      destruct (vals !! n) as [v |]; simpl in Hn; [| discriminate].
      injection Hn as <-. rewrite length_insert.
      exact (Forall_lookup_1 _ _ _ _ Hwf Er).
  - (* a new column is appended *)
    split; [split; [| split; [| split]] |].
    + unfold pd.len. simpl. rewrite length_zip_with. lia.
    + simpl. now apply prefix_app_r.
    + intros c Hc. apply list_elem_of_singleton in Hc as ->.
      unfold pd.has_col. simpl. rewrite index_of_snoc_new by exact Ei.
      now apply bool_decide_eq_true.
    + intros c Hc. rewrite list_elem_of_singleton in Hc.
      unfold pd.getitem. simpl. rewrite index_of_snoc by exact Hc.
      destruct (pd.index_of c (pd.columns f)) as [k |] eqn:Ek; [| reflexivity].
      f_equal. apply list_eq. intros n.
      rewrite !list_lookup_fmap, lookup_zip_with.
      destruct (pd.rows f !! n) as [r |] eqn:Er; simpl; [| reflexivity].
      destruct (vals !! n) as [v |] eqn:Ev; simpl.
      * unfold pd.cell. rewrite lookup_app_l; [reflexivity |].
        apply index_of_lt in Ek.
        now rewrite (Forall_lookup_1 _ _ _ _ Hwf Er).
      * apply lookup_lt_Some in Er. apply lookup_ge_None in Ev. lia.
    + unfold wf in *. simpl. apply Forall_lookup. intros n r Hn.
      rewrite lookup_zip_with in Hn.
      destruct (pd.rows f !! n) as [r0 |] eqn:Er; simpl in Hn; [| discriminate].
      destruct (vals !! n) as [v |]; simpl in Hn; [| discriminate].
      injection Hn as <-. rewrite !length_app. simpl.
      now rewrite (Forall_lookup_1 _ _ _ _ Hwf Er).
Qed.

Lemma gains_trans (A B : list string) (f f1 f2 : pd.DataFrame) :
  gains A f f1 -> gains B f1 f2 -> gains (A ++ B) f f2.
Proof.
  intros (Hl1 & Hp1 & Hin1 & Hout1) (Hl2 & Hp2 & Hin2 & Hout2).
  split; [congruence |]. split; [etrans; eauto |]. split.
  - intros c Hc. destruct (decide (c ∈ B)) as [HB | HB]; [auto |].
    apply elem_of_app in Hc as [Hc | Hc]; [| contradiction].
    apply has_col_true. rewrite Hout2 by exact HB.
    apply has_col_true. auto.
  - intros c Hc. rewrite not_elem_of_app in Hc. destruct Hc as [HA HB].
    rewrite Hout2 by exact HB. auto.
Qed.

Lemma mask_drop_not_in (labels cols : list string) (c : string) :
  c ∈ labels ->
  pd.index_of c
    (pd.mask (map (fun c => negb (existsb (String.eqb c) labels)) cols) cols)
  = None.
Proof.
  intros Hc. induction cols as [| d cols IH]; [reflexivity |].
  unfold pd.mask in *. simpl.
  destruct (existsb (String.eqb d) labels) eqn:Ed; simpl; [exact IH |].
  destruct (String.eqb d c) eqn:Edc.
  - apply String.eqb_eq in Edc as ->.
    assert (existsb (String.eqb c) labels = true); [| congruence].
    apply existsb_exists. exists c. rewrite String.eqb_refl.
    split; [now apply list_elem_of_In | reflexivity].
  - now rewrite IH.
Qed.

Lemma drop_has_col (f r : pd.DataFrame) (labels : list string) (c : string) :
  pd.drop f labels = Ok r -> c ∈ labels -> pd.has_col r c = false.
Proof.
  unfold pd.drop. destruct (List.find _ labels); [discriminate |].
  intros [= <-] Hc. unfold pd.has_col, pd.drop_cols. simpl.
  rewrite mask_drop_not_in by exact Hc.
  apply bool_decide_eq_false. intros [? ?]. discriminate.
Qed.

End FrameFacts.

(** ** Distance assignment *)

Section DistanceFacts.

(** C6: when the locations frame or the facilities frame has no row,
    [calculate_distance_df] returns the very locations object it was given
    and changes nothing: no column is added and no exception is raised. *)
Theorem calculate_distance_df_passthrough
    (w : world) (df df2 : ref) (xy_cols xy_cols2 : list string)
    (col_prefix id_col : string) (f f2 : pd.DataFrame) :
  heap w !! df = Some f -> heap w !! df2 = Some f2 ->
  pd.len f = O \/ pd.len f2 = O ->
  distance.calculate_distance_df df xy_cols df2 xy_cols2 col_prefix id_col w
  = (w, Ok df).
Proof.
  intros Hf Hf2 Hempty.
  unfold distance.calculate_distance_df, mbind, M_bind, load.
  rewrite Hf, Hf2.
  destruct Hempty as [-> | ->]; simpl; [reflexivity |].
  now rewrite orb_true_r.
Qed.

Lemma calculate_distance_df_passthrough_witness :
  let w := mkWorld [pd.mkDF ["lon"; "lat"] [];
                    pd.mkDF ["facility_id"; "lon"; "lat"]
                            [[VStr "q"; VInt 1; VInt 1]]] ∅ [] in
  distance.calculate_distance_df 0 ["lon"; "lat"] 1 ["lon"; "lat"]
    "hh" "facility_id" w = (w, Ok O).
Proof.
  eapply calculate_distance_df_passthrough;
    [reflexivity | reflexivity | left; reflexivity].
Defined.

(** C10: on two non-empty frames held by distinct objects,
    [calculate_distance_df] assigns in place: the locations object gains the
    columns x, y, z, <prefix>_assigned_id and <prefix>_euclidean, the
    facilities object gains x, y, z and keeps them; the returned frame is a
    new object without x, y, z; the rows and the other columns of both
    inputs, and every other object, are as before. *)
Theorem calculate_distance_df_mutates_inputs
    (w w' : world) (df df2 res : ref) (xy_cols xy_cols2 : list string)
    (col_prefix id_col : string) (f f2 : pd.DataFrame) :
  df <> df2 ->
  heap w !! df = Some f -> heap w !! df2 = Some f2 ->
  wf f -> wf f2 ->
  pd.len f <> O -> pd.len f2 <> O ->
  distance.calculate_distance_df df xy_cols df2 xy_cols2 col_prefix id_col w
  = (w', Ok res) ->
  exists f' f2' r,
    heap w' !! df = Some f' /\ heap w' !! df2 = Some f2'
    /\ res = length (heap w) /\ heap w' !! res = Some r
    /\ gains ["x"; "y"; "z"; col_prefix +:+ "_assigned_id";
              col_prefix +:+ "_euclidean"] f f'
    /\ gains ["x"; "y"; "z"] f2 f2'
    /\ (forall c, c ∈ ["x"; "y"; "z"] -> pd.has_col r c = false)
    /\ (forall r', r' <> df -> r' <> df2 -> r' <> res ->
          heap w' !! r' = heap w !! r')
    /\ files w' = files w /\ trace w' = trace w.
Proof.
  intros Hne Hf Hf2 Hwf Hwf2 Hlen Hlen2 H.
  unfold distance.calculate_distance_df in H.
  pure_inv H fa Hfa. pure_inv H fb Hfb.
  rewrite Hf in Hfa. injection Hfa as <-.
  rewrite Hf2 in Hfb. injection Hfb as <-.
  destruct (pd.len f =? 0)%nat eqn:E1; [apply Nat.eqb_eq in E1; lia |].
  destruct (pd.len f2 =? 0)%nat eqn:E2; [apply Nat.eqb_eq in E2; lia |].
  simpl in H.
  pure_inv H lon_col Hlon_col. pure_inv H lon Hlon.
  pure_inv H lat_col Hlat_col. pure_inv H lat Hlat.
  pure_inv H lat' Hlat'. pure_inv H lon' Hlon'.
  clear Hlon_col Hlon Hlat_col Hlat Hlat' Hlon' E1 E2.
  (* the three assignments to the locations object *)
  set_inv H w1 g0 g1 Hg0 Hset1 Hg1 Ho1 Hl1 Hfi1 Htr1.
  rewrite Hf in Hg0. injection Hg0 as <-.
  set_inv H w2 g1' g2 Hg1' Hset2 Hg2 Ho2 Hl2 Hfi2 Htr2.
  rewrite Hg1 in Hg1'. injection Hg1' as <-.
  set_inv H w3 g2' g3 Hg2' Hset3 Hg3 Ho3 Hl3 Hfi3 Htr3.
  rewrite Hg2 in Hg2'. injection Hg2' as <-.
  pure_inv H lon_col2 Hlon_col2. pure_inv H lon2 Hlon2.
  pure_inv H lat_col2 Hlat_col2. pure_inv H lat2 Hlat2.
  pure_inv H lat2' Hlat2'. pure_inv H lon2' Hlon2'.
  clear Hlon_col2 Hlon2 Hlat_col2 Hlat2 Hlat2' Hlon2'.
  (* the three assignments to the facilities object *)
  assert (Hw3f2 : heap w3 !! df2 = Some f2).
  { rewrite Ho3, Ho2, Ho1 by congruence. exact Hf2. }
  set_inv H w4 h0 h1 Hh0 Hset4 Hh1 Ho4 Hl4 Hfi4 Htr4.
  rewrite Hw3f2 in Hh0. injection Hh0 as <-.
  set_inv H w5 h1' h2 Hh1' Hset5 Hh2 Ho5 Hl5 Hfi5 Htr5.
  rewrite Hh1 in Hh1'. injection Hh1' as <-.
  set_inv H w6 h2' h3 Hh2' Hset6 Hh3 Ho6 Hl6 Hfi6 Htr6.
  rewrite Hh2 in Hh2'. injection Hh2' as <-.
  assert (Hw6f : heap w6 !! df = Some g3).
  { rewrite Ho6, Ho5, Ho4 by congruence. exact Hg3. }
  pure_inv H fc Hfc. pure_inv H xyz Hxyz. pure_inv H xy_ser Hxy_ser.
  pure_inv H fd Hfd. pure_inv H xyz2 Hxyz2. pure_inv H xy_ser2 Hxy_ser2.
  pure_inv H nearest Hnearest. pure_inv H ids Hids.
  pure_inv H nearest_ids Hnearest_ids.
  clear Hfc Hxyz Hxy_ser Hfd Hxyz2 Hxy_ser2 Hnearest Hids Hnearest_ids.
  (* the two result columns of the locations object *)
  set_inv H w7 g3' g4 Hg3' Hset7 Hg4 Ho7 Hl7 Hfi7 Htr7.
  rewrite Hw6f in Hg3'. injection Hg3' as <-.
  set_inv H w8 g4' g5 Hg4' Hset8 Hg5 Ho8 Hl8 Hfi8 Htr8.
  rewrite Hg4 in Hg4'. injection Hg4' as <-.
  pure_inv H cur1 Hcur1. pure_inv H cur2 Hcur2. pure_inv H merged Hmerged.
  pure_inv H r Hdrop.
  unfold alloc in H. injection H as <- <-. simpl.
  assert (Hlen8 : length (heap w8) = length (heap w)) by congruence.
  assert (Hdf : (df < length (heap w8))%nat) by (eapply lookup_lt_Some; eauto).
  assert (Hw8f2 : heap w8 !! df2 = Some h3).
  { rewrite Ho8, Ho7 by congruence. exact Hh3. }
  assert (Hdf2 : (df2 < length (heap w8))%nat) by (eapply lookup_lt_Some; eauto).
  exists g5, h3, r.
  split; [rewrite lookup_app_l by exact Hdf; exact Hg5 |].
  split; [rewrite lookup_app_l by exact Hdf2; exact Hw8f2 |].
  split; [exact Hlen8 |].
  split; [rewrite lookup_app_r by lia; now rewrite Nat.sub_diag |].
  (* the chain of column assignments *)
  destruct (setitem_gains _ _ _ _ Hwf Hset1) as [G1 W1].
  destruct (setitem_gains _ _ _ _ W1 Hset2) as [G2 W2].
  destruct (setitem_gains _ _ _ _ W2 Hset3) as [G3 W3].
  destruct (setitem_gains _ _ _ _ W3 Hset7) as [G7 W7].
  destruct (setitem_gains _ _ _ _ W7 Hset8) as [G8 _].
  destruct (setitem_gains _ _ _ _ Hwf2 Hset4) as [G4 W4].
  destruct (setitem_gains _ _ _ _ W4 Hset5) as [G5 W5].
  destruct (setitem_gains _ _ _ _ W5 Hset6) as [G6 _].
  split.
  { exact (gains_trans _ _ _ _ _
             (gains_trans _ _ _ _ _
                (gains_trans _ _ _ _ _ (gains_trans _ _ _ _ _ G1 G2) G3) G7) G8). }
  split.
  { exact (gains_trans _ _ _ _ _ (gains_trans _ _ _ _ _ G4 G5) G6). }
  split; [intros c Hc; eapply drop_has_col; eauto |].
  split.
  { intros r' Hr1 Hr2 Hr3.
    destruct (decide (r' < length (heap w8))%nat) as [Hlt | Hge].
    - rewrite lookup_app_l by exact Hlt.
      rewrite Ho8, Ho7, Ho6, Ho5, Ho4, Ho3, Ho2, Ho1 by congruence. reflexivity.
    - rewrite (lookup_ge_None_2 (heap w)) by lia.
      apply lookup_ge_None_2. rewrite length_app. simpl. lia. }
  split; congruence.
Qed.

End DistanceFacts.

Section DistanceWitness.

Lemma calculate_distance_df_mutates_inputs_witness :
  let f := pd.mkDF ["id"; "lon"; "lat"] [[VStr "a"; VInt 0; VInt 0]] in
  let f2 := pd.mkDF ["facility_id"; "lon"; "lat"] [[VStr "q"; VInt 1; VInt 1]] in
  let w := mkWorld [f; f2] ∅ [] in
  exists w' f' f2' r,
    distance.calculate_distance_df 0 ["lon"; "lat"] 1 ["lon"; "lat"]
      "hh" "facility_id" w = (w', Ok 2%nat)
    /\ heap w' !! O = Some f' /\ heap w' !! 1%nat = Some f2'
    /\ heap w' !! 2%nat = Some r
    /\ gains ["x"; "y"; "z"; "hh_assigned_id"; "hh_euclidean"] f f'
    /\ gains ["x"; "y"; "z"] f2 f2'
    /\ (forall c, c ∈ ["x"; "y"; "z"] -> pd.has_col r c = false).
Proof.
  cbv zeta.
  assert (Hrun : exists w',
             distance.calculate_distance_df 0 ["lon"; "lat"] 1 ["lon"; "lat"]
               "hh" "facility_id"
               (mkWorld [pd.mkDF ["id"; "lon"; "lat"] [[VStr "a"; VInt 0; VInt 0]];
                         pd.mkDF ["facility_id"; "lon"; "lat"]
                                 [[VStr "q"; VInt 1; VInt 1]]] ∅ [])
             = (w', Ok 2%nat)).
  { eexists.
    cbv -[cos sin sqrt Rabs Rpower PI IZR Rdiv Rminus Rplus Rmult Rinv Ropp
          Req_dec_T Rlt_dec].
    reflexivity. }
  destruct Hrun as [w' Hrun].
  destruct (calculate_distance_df_mutates_inputs
              (mkWorld [pd.mkDF ["id"; "lon"; "lat"] [[VStr "a"; VInt 0; VInt 0]];
                        pd.mkDF ["facility_id"; "lon"; "lat"]
                                [[VStr "q"; VInt 1; VInt 1]]] ∅ [])
              w' 0 1 2 ["lon"; "lat"] ["lon"; "lat"] "hh" "facility_id"
              (pd.mkDF ["id"; "lon"; "lat"] [[VStr "a"; VInt 0; VInt 0]])
              (pd.mkDF ["facility_id"; "lon"; "lat"] [[VStr "q"; VInt 1; VInt 1]]))
    as (f' & f2' & r & H1 & H2 & _ & H3 & H4 & H5 & H6 & _);
    [ discriminate | reflexivity | reflexivity
    | repeat constructor | repeat constructor
    | discriminate | discriminate | exact Hrun | ].
  exists w', f', f2', r. auto 10.
Defined.

End DistanceWitness.

(** ** Clustering *)

Section ClusteringFacts.
Import config.

Lemma emit_Ok_inv (e : event) (w w' : world) (u : unit) :
  emit e w = (w', Ok u) ->
  heap w' = heap w /\ files w' = files w /\ trace w' = trace w ++ [e].
Proof. unfold emit. intros [= <- _]. auto. Qed.

Lemma kmeans_fit_Ok_inv (fit : spatial.fit_fn) (X : list (list value)) (n : Z)
    (kw : spatial.kwargs) (w w' : world) (m : spatial.KMeans) :
  spatial.kmeans_fit fit X n kw w = (w', Ok m) ->
  fit X n kw = Ok m
  /\ heap w' = heap w /\ files w' = files w
  /\ trace w' = trace w ++ [KMeansFit X n].
Proof.
  unfold spatial.kmeans_fit. intros H.
  apply bind_Ok_inv in H as (u & w1 & He & H).
  apply emit_Ok_inv in He as (Hh & Hf & Ht).
  apply lift_Ok_inv in H as [-> H]. auto.
Qed.

(** C1: whenever [cluster_points] returns, the flag it returns is true
    exactly when the fitted model reports fewer iterations than its budget
    [max_iter]: an iteration count equal to the budget gives false, one
    below the budget gives true. *)
Theorem cluster_points_converged_iff
    (fit : spatial.fit_fn) (w w' : world) (df_points df_centers : ref)
    (xy_cols : list string) (cluster_col : option string)
    (center_xy_cols : option (list string)) (converged : bool) :
  clustering.cluster_points fit df_points df_centers xy_cols cluster_col
    center_xy_cols w = (w', Ok converged) ->
  exists fp fc points centers m,
    heap w !! df_points = Some fp /\ heap w !! df_centers = Some fc
    /\ pd.select fp xy_cols = Ok points /\ pd.select fc xy_cols = Ok centers
    /\ fit (pd.rows points) (Z.of_nat (pd.len centers))
         (spatial.mkKwargs (Some (pd.rows centers)) (Some 1%Z)) = Ok m
    /\ trace w' = trace w ++ [KMeansFit (pd.rows points) (Z.of_nat (pd.len centers))]
    /\ (converged = true <-> (spatial.n_iter_ m < spatial.max_iter m)%Z)
    /\ (spatial.n_iter_ m = spatial.max_iter m -> converged = false)
    /\ (spatial.n_iter_ m = (spatial.max_iter m - 1)%Z -> converged = true).
Proof.
  intros H. unfold clustering.cluster_points in H.
  pure_inv H fp Hfp. pure_inv H points Hpoints.
  pure_inv H fc Hfc. pure_inv H centers Hcenters.
  bind_inv H m w1 Hfit.
  apply kmeans_fit_Ok_inv in Hfit as (Hfit & Hh1 & _ & Ht1).
  set_inv H w2 g0 g1 Hg0 Hset1 Hg1 Ho1 Hl1 Hfi1 Htr1.
  pure_inv H col0 Hcol0. pure_inv H col1 Hcol1. pure_inv H k0 Hk0.
  set_inv H w3 g2 g3 Hg2 Hset2 Hg3 Ho2 Hl2 Hfi2 Htr2.
  pure_inv H k1 Hk1.
  set_inv H w4 g4 g5 Hg4 Hset3 Hg5 Ho3 Hl3 Hfi3 Htr3.
  apply ret_Ok_inv in H as [-> ->].
  exists fp, fc, points, centers, m.
  repeat (split; [first [eassumption | congruence] |]).
  split; [apply Z.ltb_lt |].
  split; intros Hn; [apply Z.ltb_ge | apply Z.ltb_lt]; lia.
Qed.

Section ClusterPointsWitness.

Lemma cluster_points_converged_iff_witness :
  let df_points :=
    pd.mkDF ["x"; "y"] [[VInt 1; VInt 1]; [VInt 2; VInt 2]; [VInt 3; VInt 3];
                        [VInt 4; VInt 4]; [VInt 5; VInt 5]] in
  let df_centers := pd.mkDF ["x"; "y"] [[VInt 1; VInt 1]; [VInt 5; VInt 5]] in
  exists w' m,
    clustering.cluster_points mock_kmeans_fit 0 1 ["x"; "y"] None None
      (mkWorld [df_points; df_centers] ∅ []) = (w', Ok true)
    /\ (true = true <-> (spatial.n_iter_ m < spatial.max_iter m)%Z).
Proof.
  cbv zeta.
  assert (Hrun : exists w',
    clustering.cluster_points mock_kmeans_fit 0 1 ["x"; "y"] None None
      (mkWorld [pd.mkDF ["x"; "y"]
                  [[VInt 1; VInt 1]; [VInt 2; VInt 2]; [VInt 3; VInt 3];
                   [VInt 4; VInt 4]; [VInt 5; VInt 5]];
                pd.mkDF ["x"; "y"] [[VInt 1; VInt 1]; [VInt 5; VInt 5]]] ∅ [])
    = (w', Ok true)).
  { eexists. cbv -[IZR]. reflexivity. }
  destruct Hrun as [w' Hrun].
  destruct (cluster_points_converged_iff _ _ _ _ _ _ _ _ _ Hrun)
    as (fp & fc & points & centers & m & _ & _ & _ & _ & _ & _ & Hiff & _).
  exists w', m. split; [exact Hrun | exact Hiff].
Defined.

End ClusterPointsWitness.
End ClusteringFacts.

(** ** Cluster counts and the small-cluster flag *)

Section CountsFacts.
Import config.

Lemma mapR_lt_int (th : Z) (ns : list Z) :
  mapR (pd.lt_int th) (map VInt ns) = Ok (map (fun n => VBool (n <? th)%Z) ns).
Proof.
  induction ns as [| n ns IH]; [reflexivity |].
  simpl. unfold mbind, result_mbind. simpl. now rewrite IH.
Qed.

(** The flag column computed from a fresh one-column table of counts. *)
Lemma counts_small_flags (th : Z) (names : list string)
    (idx : list (list value)) (ns : list Z) (c small : list value)
    (d : pd.DataFrame) :
  length idx = length ns ->
  pd.getitem (pd.mkDF ["counts"] (map (fun n => [VInt n]) ns)) "counts" = Ok c ->
  mapR (pd.lt_int th) c = Ok small ->
  pd.setitem (pd.mkDF ["counts"] (map (fun n => [VInt n]) ns)) "small" small = Ok d ->
  small_flags th (pd.mkIF names idx d).
Proof.
  intros Hlen Hc Hsmall Hd.
  unfold pd.getitem in Hc. simpl in Hc. injection Hc as <-.
  rewrite map_map in Hsmall. simpl in Hsmall.
  change (map (fun x : Z => pd.cell 0 [VInt x]) ns) with (map VInt ns) in Hsmall.
  rewrite mapR_lt_int in Hsmall. injection Hsmall as <-.
  unfold pd.setitem, pd.len in Hd. simpl in Hd.
  rewrite !length_map, Nat.eqb_refl in Hd. simpl in Hd. injection Hd as <-.
  exists (map VInt ns), (map (fun n => VBool (n <? th)%Z) ns). simpl.
  assert (Hrow : forall i,
             zip_with (fun (r : list value) (v : value) => r ++ [v])
               (map (fun n => [VInt n]) ns)
               (map (fun n => VBool (n <? th)%Z) ns) !! i
             = (fun n => [VInt n; VBool (n <? th)%Z]) <$> ns !! i).
  { intros i. rewrite lookup_zip_with, !list_lookup_fmap.
    destruct (ns !! i); reflexivity. }
  split; [| split; [| split]].
  - unfold pd.getitem. simpl. f_equal. apply list_eq. intros i.
    rewrite !list_lookup_fmap, Hrow. destruct (ns !! i); reflexivity.
  - unfold pd.getitem. simpl. f_equal. apply list_eq. intros i.
    rewrite !list_lookup_fmap, Hrow. destruct (ns !! i); reflexivity.
  - now rewrite length_map.
  - intros i Hi. rewrite Hlen in Hi.
    destruct (lookup_lt_is_Some_2 ns i Hi) as [n Hn].
    exists n, (n <? th)%Z. rewrite !list_lookup_fmap, Hn. simpl.
    split; [reflexivity |]. split; [reflexivity |].
    split; [apply Z.ltb_lt |].
    split; intros ->; [apply Z.ltb_ge | apply Z.ltb_lt]; lia.
Qed.

Lemma groupby_count_shape (df : pd.DataFrame) (by_ : list string)
    (col out : string) (t : pd.IndexedFrame) :
  pd.groupby_count df by_ col out = Ok t ->
  exists ns, length (pd.index t) = length ns
             /\ pd.data t = pd.mkDF [out] (map (fun n => [VInt n]) ns).
Proof.
  unfold pd.groupby_count, mbind, result_mbind, result_bind.
  destruct (pd.groupby df by_) as [gs | e]; [| discriminate].
  destruct (pd.index_of col (pd.columns df)) as [i |]; [| discriminate].
  intros [= <-]. simpl.
  exists (map (fun g => pd.count_present (map (pd.cell i) (snd g))) gs).
  split; [now rewrite !length_map |].
  now rewrite map_map.
Qed.

Lemma groupby_size_shape (df : pd.DataFrame) (by_ : list string)
    (out : string) (t : pd.IndexedFrame) :
  pd.groupby_size df by_ out = Ok t ->
  exists ns, length (pd.index t) = length ns
             /\ pd.data t = pd.mkDF [out] (map (fun n => [VInt n]) ns).
Proof.
  unfold pd.groupby_size, mbind, result_mbind, result_bind.
  destruct (pd.groupby df by_) as [gs | e]; [| discriminate].
  intros [= <-]. simpl.
  exists (map (fun g => Z.of_nat (length (snd g))) gs).
  split; [now rewrite !length_map |].
  now rewrite map_map.
Qed.

Lemma _calc_counts_small_flags (self self' : clustering.ClusteredHouseholds)
    (w w' : world) :
  clustering._calc_counts self w = (w', Ok self') ->
  clustering.cfg self' = clustering.cfg self
  /\ exists t, clustering._df_counts self' = Some t
     /\ small_flags (threshold_households (args (clustering.cfg self))) t.
Proof.
  intros H. unfold clustering._calc_counts in H.
  pure_inv H fr Hfr. pure_inv H x0 Hx0. pure_inv H counts Hcounts.
  pure_inv H c Hc. pure_inv H small Hsmall. pure_inv H d Hd.
  apply ret_Ok_inv in H as [-> ->]. simpl.
  split; [reflexivity |]. eexists. split; [reflexivity |].
  apply groupby_count_shape in Hcounts as (ns & Hlen & Hdata).
  rewrite Hdata in Hc, Hd.
  eapply counts_small_flags; eauto.
Qed.

(** C3: in the counts table that [finalize] leaves in a
    [ClusteredHouseholds], and in the one [check_thresholds] computes, the
    flag [small] of a cluster is true exactly when its count is below the
    configured threshold: false at the threshold, true one below it. *)
Theorem finalize_small_iff_below_threshold :
  (forall (self self' : clustering.ClusteredHouseholds) (converged : bool)
          (w w' : world),
      clustering.finalize self converged w = (w', Ok self') ->
      exists t, clustering._df_counts self' = Some t
                /\ small_flags (threshold_households (args (clustering.cfg self))) t)
  /\ (forall (df : pd.DataFrame) (columns : list string) (th : Z)
             (t : pd.IndexedFrame),
         flows.check_thresholds_df_cnt df columns th = Ok t ->
         small_flags th t).
Proof.
  split.
  - intros self self' converged w w' H. unfold clustering.finalize in H.
    bind_inv H self1 w1 H1. bind_inv H self2 w2 H2.
    apply _calc_counts_small_flags in H as [Hcfg Ht].
    assert (Hcfg1 : clustering.cfg self1 = clustering.cfg self).
    { unfold clustering._prep_centers in H1.
      pure_inv H1 c Hc. pure_inv H1 cxy Hcxy. pure_inv H1 fr Hfr.
      pure_inv H1 fr' Hfr'. bind_inv H1 r w3 Hr.
      apply ret_Ok_inv in H1 as [_ ->]. reflexivity. }
    assert (Hcfg2 : clustering.cfg self2 = clustering.cfg self1).
    { unfold clustering._prep_clusters in H2.
      pure_inv H2 name_col Hn. bind_inv H2 joined w3 Hj.
      pure_inv H2 c Hc. pure_inv H2 c' Hc'. pure_inv H2 sel Hsel.
      pure_inv H2 sorted Hsorted. bind_inv H2 r w4 Hr.
      apply ret_Ok_inv in H2 as [_ ->]. reflexivity. }
    rewrite Hcfg2, Hcfg1 in Ht. exact Ht.
  - intros df columns th t H.
    unfold flows.check_thresholds_df_cnt, mbind, result_mbind, result_bind in H.
    destruct (pd.groupby_size df columns "counts") as [df_cnt | e] eqn:Hcnt;
      [| discriminate].
    destruct (pd.getitem (pd.data df_cnt) "counts") as [c | e] eqn:Hc;
      [| discriminate].
    destruct (mapR (pd.lt_int th) c) as [small | e] eqn:Hsmall; [| discriminate].
    destruct (pd.setitem (pd.data df_cnt) "small" small) as [d | e] eqn:Hd;
      [| discriminate].
    injection H as <-.
    apply groupby_size_shape in Hcnt as (ns & Hlen & Hdata).
    rewrite Hdata in Hc, Hd.
    eapply counts_small_flags; eauto.
Qed.

Lemma finalize_small_iff_below_threshold_witness :
  let self := clustering.mkClusteredHouseholds example_cfg "A" true false None 0 1 in
  exists w' self' t,
    clustering.finalize self true (mkWorld [example_clusters; example_centers] ∅ [])
    = (w', Ok self')
    /\ clustering._df_counts self' = Some t
    /\ pd.index t = [[VStr "A"; VStr "north"; VInt 0]; [VStr "A"; VStr "south"; VInt 1]]
    /\ pd.rows (pd.data t) = [[VInt 2; VBool true]; [VInt 3; VBool false]]
    /\ small_flags 3 t.
Proof.
  cbv zeta.
  assert (Hrun : exists w' self',
    clustering.finalize
      (clustering.mkClusteredHouseholds example_cfg "A" true false None 0 1) true
      (mkWorld [example_clusters; example_centers] ∅ []) = (w', Ok self')
    /\ clustering._df_counts self'
       = Some (pd.mkIF ["adm1"; "village"; "cluster"]
                 [[VStr "A"; VStr "north"; VInt 0]; [VStr "A"; VStr "south"; VInt 1]]
                 (pd.mkDF ["counts"; "small"]
                    [[VInt 2; VBool true]; [VInt 3; VBool false]]))).
  { eexists. eexists. split; [vm_compute; reflexivity | reflexivity]. }
  destruct Hrun as (w' & self' & Hrun & Hcounts).
  destruct (proj1 finalize_small_iff_below_threshold _ _ _ _ _ Hrun)
    as (t & Ht & Hflags).
  exists w', self', t.
  rewrite Hcounts in Ht. injection Ht as <-.
  repeat split; first [assumption | reflexivity].
Defined.

End CountsFacts.

(** ** Facility placement *)

Section PlacementFacts.
Import config.






Lemma gains_weaken (A B : list string) (f f' : pd.DataFrame) :
  gains A f f' -> (forall c, c ∈ A -> c ∈ B) ->
  pd.len f' = pd.len f /\ forall c, c ∉ B -> pd.getitem f' c = pd.getitem f c.
Proof.
  intros (Hl & _ & _ & Hout) Hsub. split; [exact Hl |].
  intros c Hc. apply Hout. intros HA. apply Hc, Hsub, HA.
Qed.






End PlacementFacts.

(** ** Household derivation *)

Section InputsFacts.
Import config.

Lemma is_file_inv (path : string) (w w' : world) (b : bool) :
  is_file path w = (w', Ok b) ->
  w' = w /\ b = bool_decide (is_Some (files w !! path)).
Proof. unfold is_file. intros [= <- <-]. auto. Qed.

Lemma write_file_inv (path : string) (f : file_data) (w w' : world) (u : unit) :
  write_file path f w = (w', Ok u) ->
  files w' = <[path:=f]> (files w).
Proof. unfold write_file. intros [= <- _]. reflexivity. Qed.

Lemma prepare_households_skip (within : Geometry -> Geometry -> bool)
    (cfg : Config) (buildings_file : string) (buildings_xy_cols : list string)
    (shapes_file : string) (shapes_adm_cols : list string) (w : world) :
  is_Some (files w !! file (households (inputs cfg))) ->
  inputs.prepare_households within cfg buildings_file buildings_xy_cols
    shapes_file shapes_adm_cols w
  = (skipped w, Ok (file (households (inputs cfg)))).
Proof.
  intros Hfile. unfold inputs.prepare_households, mbind, M_bind, is_file.
  rewrite bool_decide_eq_true_2 by exact Hfile. reflexivity.
Qed.

Lemma prepare_households_writes (within : Geometry -> Geometry -> bool)
    (cfg : Config) (buildings_file : string) (buildings_xy_cols : list string)
    (shapes_file : string) (shapes_adm_cols : list string) (w w' : world)
    (path : string) :
  inputs.prepare_households within cfg buildings_file buildings_xy_cols
    shapes_file shapes_adm_cols w = (w', Ok path) ->
  path = file (households (inputs cfg))
  /\ is_Some (files w' !! file (households (inputs cfg))).
Proof.
  intros H. unfold inputs.prepare_households in H.
  bind_inv H b w1 Hb. apply is_file_inv in Hb as [-> ->].
  destruct (bool_decide (is_Some (files w !! file (households (inputs cfg)))))
    eqn:E.
  - apply bool_decide_eq_true in E.
    bind_inv H u w1 He. apply emit_Ok_inv in He as (_ & He & _).
    apply ret_Ok_inv in H as [-> ->]. split; [reflexivity |].
    now rewrite He.
  - bind_inv H u1 w1 H1. bind_inv H gdf w2 H2. bind_inv H df_xy w3 H3.
    bind_inv H df w4 H4. bind_inv H u2 w5 H5.
    apply ret_Ok_inv in H as [-> ->]. split; [reflexivity |].
    apply write_file_inv in H5. rewrite H5, lookup_insert_eq. eauto.
Qed.

(** C7: when the configured households file exists (empty or not),
    [prepare_households] returns its path and does nothing but log that it
    skips the preparation: no file is read or written and no join is run;
    hence a second run after a completed one is such a skip. *)
Theorem prepare_households_idempotent
    (within : Geometry -> Geometry -> bool) (cfg : Config)
    (buildings_file : string) (buildings_xy_cols : list string)
    (shapes_file : string) (shapes_adm_cols : list string)
    (w : world) (content : file_data) :
  files w !! file (households (inputs cfg)) = Some content ->
  inputs.prepare_households within cfg buildings_file buildings_xy_cols
    shapes_file shapes_adm_cols w
  = (skipped w, Ok (file (households (inputs cfg))))
  /\ files (skipped w) = files w /\ heap (skipped w) = heap w
  /\ (forall e, e ∈ trace (skipped w) -> e ∉ trace w ->
        e = LogInfo "Skipping households prep, file already exists.")
  /\ (forall w0 w1 path,
        inputs.prepare_households within cfg buildings_file buildings_xy_cols
          shapes_file shapes_adm_cols w0 = (w1, Ok path) ->
        inputs.prepare_households within cfg buildings_file buildings_xy_cols
          shapes_file shapes_adm_cols w1 = (skipped w1, Ok path)).
Proof.
  intros Hfile. split.
  { apply prepare_households_skip. rewrite Hfile. eauto. }
  split; [reflexivity |]. split; [reflexivity |]. split.
  - intros e He Hne. simpl in He. apply elem_of_app in He as [He | He];
      [contradiction |].
    now apply list_elem_of_singleton in He.
  - intros w0 w1 path Hrun.
    apply prepare_households_writes in Hrun as [-> Hex].
    now apply prepare_households_skip.
Qed.

Lemma prepare_households_idempotent_witness :
  let w := mkWorld [] {[ "inputs/households.csv" := Table one_building ]} [] in
  inputs.prepare_households rect_within example_cfg "buildings.feather"
    ["longitude"; "latitude"] "shapes.shp" ["NAME_1"] w
  = (skipped w, Ok "inputs/households.csv")
  /\ files (skipped w) = files w.
Proof.
  cbv zeta.
  destruct (prepare_households_idempotent rect_within example_cfg
              "buildings.feather" ["longitude"; "latitude"] "shapes.shp"
              ["NAME_1"]
              (mkWorld [] {[ "inputs/households.csv" := Table one_building ]} [])
              (Table one_building))
    as (Hrun & Hfiles & _).
  - apply lookup_singleton_eq.
  - split; [exact Hrun | exact Hfiles].
Defined.

End InputsFacts.

(** ** The spatial join cannot outnumber the points of disjoint polygons *)

Section JoinFacts.
Import config.

Lemma mapR_length {A B} (f : A -> result B) (l : list A) (l' : list B) :
  mapR f l = Ok l' -> length l' = length l.
Proof.
  revert l'. induction l as [| a l IH]; intros l'; simpl.
  - intros [= <-]. reflexivity.
  - unfold mbind, result_mbind, result_bind.
    destruct (f a); [| discriminate]. destruct (mapR f l); [| discriminate].
    intros [= <-]. simpl. f_equal. now apply IH.
Qed.

Lemma select_len (f f' : pd.DataFrame) (names : list string) :
  pd.select f names = Ok f' -> pd.len f' = pd.len f.
Proof.
  unfold pd.select, mbind, result_mbind, result_bind.
  destruct (mapR _ names); [| discriminate]. intros [= <-].
  unfold pd.len. simpl. now rewrite length_map.
Qed.

Lemma cell_elem (i : nat) (r : list value) :
  pd.cell i r ∈ r \/ pd.cell i r = VNaN.
Proof.
  unfold pd.cell. destruct (r !! i) eqn:E; simpl; [left | now right].
  eapply list_elem_of_lookup_2; eauto.
Qed.

Lemma select_cells_from (f f' : pd.DataFrame) (names : list string) :
  pd.select f names = Ok f' -> cells_from f f'.
Proof.
  unfold pd.select, mbind, result_mbind, result_bind.
  destruct (mapR _ names) as [idx |]; [| discriminate]. intros [= <-].
  unfold cells_from. simpl. apply Forall2_fmap_r, Forall_Forall2_diag.
  apply Forall_forall. intros r _ v Hv.
  apply list_elem_of_fmap in Hv as (i & -> & _). apply cell_elem.
Qed.

Lemma mask_elem {A} (keep : list bool) (l : list A) (v : A) :
  v ∈ pd.mask keep l -> v ∈ l.
Proof.
  unfold pd.mask. intros Hv.
  apply list_elem_of_fmap in Hv as ([b x] & -> & Hin).
  apply list_elem_of_In, filter_In in Hin as [Hin _].
  apply in_combine_r in Hin. now apply list_elem_of_In.
Qed.

Lemma rename_df_cols_rows (f f' : pd.DataFrame) (from_cols to_cols : list string) :
  util.rename_df_cols f from_cols to_cols = Ok f' ->
  pd.len f' = pd.len f /\ cells_from f f'.
Proof.
  unfold util.rename_df_cols. destruct (forallb _ from_cols); [| discriminate].
  intros [= <-]. unfold pd.len, cells_from, pd.drop_cols. simpl.
  split; [now rewrite length_map |].
  apply Forall2_fmap_r, Forall_Forall2_diag, Forall_forall.
  intros r _ v Hv. left. eapply mask_elem; eauto.
Qed.

Lemma cells_from_trans (f g h : pd.DataFrame) :
  cells_from f g -> cells_from g h -> cells_from f h.
Proof.
  unfold cells_from. intros Hfg Hgh.
  revert Hgh. generalize (pd.rows h). induction Hfg as [| r r' l l' Hr Hl IH];
    intros rows Hgh; inversion Hgh; subst; constructor.
  - intros v Hv. match goal with H : forall v, v ∈ _ -> _ ∈ r' \/ _ |- _ =>
      destruct (H v Hv) as [Hv' | ->] end; [auto | now right].
  - auto.
Qed.

Lemma filter_length_mono {A} (P Q : A -> bool) (l : list A) :
  (forall x, P x = true -> Q x = true) ->
  (length (List.filter P l) <= length (List.filter Q l))%nat.
Proof.
  intros HPQ. induction l as [| a l IH]; simpl; [lia |].
  destruct (P a) eqn:EP.
  - rewrite (HPQ a EP). simpl. lia.
  - destruct (Q a); simpl; lia.
Qed.

Lemma filter_combine_snd {A B} (P : B -> bool) (l1 : list A) (l2 : list B) :
  (length (List.filter (fun x => P (snd x)) (combine l1 l2))
   <= length (List.filter P l2))%nat.
Proof.
  revert l1. induction l2 as [| b l2 IH]; intros [| a l1]; simpl; try lia.
  specialize (IH l1). destruct (P b); simpl; lia.
Qed.

Lemma filter_combine_fst {A B} (P : A -> bool) (l1 : list A) (l2 : list B) :
  (length (List.filter (fun x => P (fst x)) (combine l1 l2))
   <= length (List.filter P l1))%nat.
Proof.
  revert l2. induction l1 as [| a l1 IH]; intros [| b l2]; simpl; try lia.
  specialize (IH l2). destruct (P a); simpl; lia.
Qed.

Lemma non_overlapping_cells_from (within : Geometry -> Geometry -> bool)
    (f f' : pd.DataFrame) :
  cells_from f f' -> non_overlapping within f -> non_overlapping within f'.
Proof.
  unfold cells_from, non_overlapping. intros Hcf Hno g.
  etrans; [| apply (Hno g)]. clear Hno.
  induction Hcf as [| r r' l l' Hr Hl IH]; simpl; [lia |].
  destruct (existsb _ r') eqn:E'.
  - apply existsb_exists in E' as (v & Hv & Hm).
    apply list_elem_of_In in Hv. destruct (Hr v Hv) as [Hv' | ->];
      [| discriminate].
    assert (existsb (spatial.matches within (VGeom g)) r = true) as ->.
    { apply existsb_exists. exists v. split; [now apply list_elem_of_In | exact Hm]. }
    simpl. lia.
  - destruct (existsb _ r); simpl; lia.
Qed.

Lemma flat_map_length_le {A B} (F : A -> list B) (l : list A) :
  (forall a, length (F a) <= 1)%nat ->
  (length (flat_map F l) <= length l)%nat.
Proof.
  intros HF. induction l as [| a l IH]; simpl; [lia |].
  rewrite length_app. specialize (HF a). lia.
Qed.

Lemma filter_nothing {A} (P : A -> bool) (l : list A) :
  (forall x, P x = false) -> List.filter P l = [].
Proof.
  intros HP. induction l as [| a l IH]; simpl; [reflexivity |].
  now rewrite HP.
Qed.

Lemma sjoin_len (within : Geometry -> Geometry -> bool)
    (left right joined : pd.DataFrame) :
  non_overlapping within right ->
  spatial.sjoin within left right = Ok joined ->
  (pd.len joined <= pd.len left)%nat.
Proof.
  intros Hno. unfold spatial.sjoin.
  destruct (pd.index_of _ (pd.columns left)) as [i |]; [| discriminate].
  destruct (pd.index_of _ (pd.columns right)) as [j |]; [| discriminate].
  intros [= <-]. unfold pd.len. simpl.
  apply flat_map_length_le. intros l. rewrite length_map.
  destruct (pd.cell i l) as [| | | | g |] eqn:Ecell;
    try (rewrite filter_nothing by reflexivity; simpl; lia).
  etrans; [| apply (Hno g)].
  etrans; [apply (filter_combine_snd
                    (fun x => spatial.matches within (VGeom g) (pd.cell j (fst x)))) |].
  etrans; [apply (filter_combine_fst
                    (fun r => spatial.matches within (VGeom g) (pd.cell j r))) |].
  apply filter_length_mono. intros r Hm.
  apply existsb_exists. exists (pd.cell j r).
  split; [| exact Hm].
  destruct (cell_elem j r) as [Hin | Hnan]; [now apply list_elem_of_In |].
  rewrite Hnan in Hm. discriminate.
Qed.

End JoinFacts.

Section DerivationFacts.
Import config.

Lemma setitem_len (f f' : pd.DataFrame) (name : string) (vals : list value) :
  pd.setitem f name vals = Ok f' -> pd.len f' = pd.len f.
Proof.
  unfold pd.setitem.
  destruct (negb (length vals =? pd.len f)%nat) eqn:E; [discriminate |].
  apply negb_false_iff, Nat.eqb_eq in E. unfold pd.len in *.
  destruct (pd.index_of name (pd.columns f)); intros [= <-]; simpl;
    rewrite length_zip_with; lia.
Qed.

Lemma dropna_len (f : pd.DataFrame) : (pd.len (pd.dropna f) <= pd.len f)%nat.
Proof. unfold pd.len, pd.dropna. simpl. apply filter_length_le. Qed.

Lemma insert_row_length (idx : list nat) (r : list value) (l : list (list value)) :
  length (pd.insert_row idx r l) = S (length l).
Proof.
  induction l as [| r' l IH]; simpl; [reflexivity |].
  destruct (pd.key_leb _ _); simpl; [reflexivity | now rewrite IH].
Qed.

Lemma sort_rows_length (idx : list nat) (l : list (list value)) :
  length (pd.sort_rows idx l) = length l.
Proof.
  induction l as [| r l IH]; simpl; [reflexivity |].
  now rewrite insert_row_length, IH.
Qed.

Lemma sort_values_len (f f' : pd.DataFrame) (by_ : list string) :
  pd.sort_values f by_ = Ok f' -> pd.len f' = pd.len f.
Proof.
  unfold pd.sort_values, mbind at 1, result_mbind, result_bind.
  destruct (mapR _ by_); [| discriminate]. intros [= <-].
  unfold pd.len. simpl. apply sort_rows_length.
Qed.

Lemma xy_to_gdf_len (df gdf : pd.DataFrame) (xy_cols : list string) :
  spatial.xy_to_gdf df xy_cols = Ok gdf -> (pd.len gdf <= pd.len df)%nat.
Proof.
  unfold spatial.xy_to_gdf, mbind, result_mbind, result_bind.
  destruct (list_get xy_cols 0); [| discriminate].
  destruct (pd.getitem df _); [| discriminate].
  destruct (list_get xy_cols 1); [| discriminate].
  destruct (pd.getitem df _); [| discriminate].
  destruct (mapR _ _); [| discriminate].
  destruct (pd.setitem df _ _) as [g |] eqn:Eg; [| discriminate].
  intros [= <-]. apply setitem_len in Eg. rewrite <- Eg. apply dropna_len.
Qed.

Lemma join_xy_shapes_len (within : Geometry -> Geometry -> bool)
    (df gdf joined : pd.DataFrame) (xy_cols : list string) (w w' : world) :
  non_overlapping within gdf ->
  spatial.join_xy_shapes within df xy_cols gdf w = (w', Ok joined) ->
  (pd.len joined <= pd.len df)%nat.
Proof.
  intros Hno H. unfold spatial.join_xy_shapes in H.
  bind_inv H u w1 He. pure_inv H gdf_pts Hpts.
  apply lift_Ok_inv in H as [_ H].
  apply xy_to_gdf_len in Hpts. apply sjoin_len in H; [lia | exact Hno].
Qed.

Lemma iloc_len (df : pd.DataFrame) (start end_ : N) :
  (N.of_nat (pd.len (inputs.iloc df start end_)) <= end_ - start)%N.
Proof.
  unfold pd.len, inputs.iloc. simpl. rewrite length_take. lia.
Qed.

Lemma concat_pair_len (a b c : pd.DataFrame) :
  pd.concat [a; b] = Ok c -> pd.len c = (pd.len a + pd.len b)%nat.
Proof.
  unfold pd.concat. intros [= <-]. unfold pd.len. simpl.
  rewrite length_app, app_nil_r. reflexivity.
Qed.

(** The rows gathered after the chunks [j .. j+m-1] are at most the points of
    the chunks [0 .. j+m-1]. *)
Lemma join_chunks_bound (within : Geometry -> Geometry -> bool)
    (stop_fn : M unit) (df_xy gdf_shp : pd.DataFrame)
    (hh_xy_cols hh_cols : list string) :
  non_overlapping within gdf_shp ->
  forall (m j : nat) (acc res : option pd.DataFrame) (w w' : world),
    inputs.join_chunks within stop_fn df_xy gdf_shp hh_xy_cols hh_cols
      (N.of_nat (pd.len df_xy)) (map N.of_nat (seq j m)) acc w = (w', Ok res) ->
    (N.of_nat (len_opt acc)
     <= N.min (N.of_nat j * inputs.chunk_size) (N.of_nat (pd.len df_xy)))%N ->
    (N.of_nat (len_opt res)
     <= N.min (N.of_nat (j + m) * inputs.chunk_size) (N.of_nat (pd.len df_xy)))%N.
Proof.
  intros Hno. induction m as [| m IH]; intros j acc res w w' H Hacc.
  - simpl in H. apply ret_Ok_inv in H as [_ ->].
    now rewrite Nat.add_0_r.
  - simpl in H. bind_inv H u w1 Hstop. bind_inv H gdf w2 Hjoin.
    pure_inv H df Hsel. bind_inv H df_hh w3 Hcat.
    apply IH in H; [now replace (j + S m)%nat with (S j + m)%nat by lia |].
    apply join_xy_shapes_len in Hjoin; [| exact Hno].
    apply select_len in Hsel.
    pose proof (iloc_len df_xy (N.of_nat j * inputs.chunk_size)
                  (N.min ((N.of_nat j + 1) * inputs.chunk_size)
                         (N.of_nat (pd.len df_xy)))) as Hchunk.
    assert (Hnew : len_opt (Some df_hh) = (len_opt acc + pd.len df)%nat).
    { destruct acc as [a |]; simpl.
      - apply lift_Ok_inv in Hcat as [_ Hcat]. now apply concat_pair_len.
      - apply ret_Ok_inv in Hcat as [_ ->]. reflexivity. }
    rewrite Hnew. unfold inputs.chunk_size in *. lia.
Qed.

Lemma joined_households_inv (within : Geometry -> Geometry -> bool)
    (gdf_shapes : pd.DataFrame) (adm_cols : list string) (df_xy : pd.DataFrame)
    (xy_cols hh_adm_cols hh_xy_cols : list string) (stop_fn : M unit)
    (w w' : world) (n : N) (j : option pd.DataFrame) :
  inputs.joined_households within gdf_shapes adm_cols df_xy xy_cols hh_adm_cols
    hh_xy_cols stop_fn w = (w', Ok (n, j)) ->
  n = N.of_nat (pd.len df_xy)
  /\ (non_overlapping within gdf_shapes -> (len_opt j <= pd.len df_xy)%nat).
Proof.
  intros H. unfold inputs.joined_households in H.
  bind_inv H df_xy' w1 Hxy. bind_inv H shp w2 Hshp. bind_inv H shp' w3 Hshp'.
  bind_inv H df_hh w4 Hloop. apply ret_Ok_inv in H as [_ [= -> ->]].
  assert (Hlen : pd.len df_xy' = pd.len df_xy).
  { destruct (bool_decide (xy_cols = hh_xy_cols)).
    - apply ret_Ok_inv in Hxy as [_ ->]. reflexivity.
    - apply lift_Ok_inv in Hxy as [_ Hxy].
      now apply rename_df_cols_rows in Hxy as [Hl _]. }
  split; [now rewrite Hlen |]. intros Hno.
  assert (Hno' : non_overlapping within shp').
  { apply lift_Ok_inv in Hshp as [_ Hshp].
    apply select_cells_from in Hshp.
    apply (non_overlapping_cells_from _ _ _ Hshp) in Hno.
    destruct (bool_decide (adm_cols = hh_adm_cols)).
    - apply ret_Ok_inv in Hshp' as [_ ->]. exact Hno.
    - apply lift_Ok_inv in Hshp' as [_ Hshp'].
      apply rename_df_cols_rows in Hshp' as [_ Hcf].
      exact (non_overlapping_cells_from _ _ _ Hcf Hno). }
  unfold inputs.range in Hloop.
  apply (join_chunks_bound _ _ _ _ _ _ Hno') in Hloop; [| simpl; lia].
  rewrite Hlen in Hloop. lia.
Qed.

Lemma too_many_households_abort (within : Geometry -> Geometry -> bool)
    (gdf_shapes : pd.DataFrame) (adm_cols : list string) (df_xy : pd.DataFrame)
    (xy_cols hh_adm_cols hh_xy_cols : list string) (stop_fn : M unit)
    (w w' : world) (n : N) (joined : pd.DataFrame) :
  inputs.joined_households within gdf_shapes adm_cols df_xy xy_cols
    hh_adm_cols hh_xy_cols stop_fn w = (w', Ok (n, Some joined)) ->
  (pd.len df_xy < pd.len joined)%nat ->
  inputs.process_google_buildings within gdf_shapes adm_cols df_xy xy_cols
    hh_adm_cols hh_xy_cols stop_fn w
  = (w', Raise (AssertionError "The number of households is too large.")).
Proof.
  intros Hj Hgt.
  unfold inputs.process_google_buildings, mbind, M_bind. rewrite Hj. simpl.
  apply joined_households_inv in Hj as [-> _].
  destruct (N.of_nat (pd.len joined) <=? N.of_nat (pd.len df_xy))%N eqn:E;
    [apply N.leb_le in E; lia | reflexivity].
Qed.

(** C2 (as the code has it): a run of [process_google_buildings] that
    returns yields at most as many rows as it was given points; when the
    households joined over the chunks outnumber the points the run stops
    with the assertion error; and the join cannot outnumber the points when
    no point is within two polygons. *)
Theorem process_google_buildings_row_bound
    (within : Geometry -> Geometry -> bool) (gdf_shapes : pd.DataFrame)
    (adm_cols : list string) (df_xy : pd.DataFrame)
    (xy_cols hh_adm_cols hh_xy_cols : list string) (stop_fn : M unit) :
  (forall w w' df_hh,
      inputs.process_google_buildings within gdf_shapes adm_cols df_xy xy_cols
        hh_adm_cols hh_xy_cols stop_fn w = (w', Ok df_hh) ->
      (pd.len df_hh <= pd.len df_xy)%nat)
  /\ (forall w w' n joined,
         inputs.joined_households within gdf_shapes adm_cols df_xy xy_cols
           hh_adm_cols hh_xy_cols stop_fn w = (w', Ok (n, Some joined)) ->
         (pd.len df_xy < pd.len joined)%nat ->
         inputs.process_google_buildings within gdf_shapes adm_cols df_xy xy_cols
           hh_adm_cols hh_xy_cols stop_fn w
         = (w', Raise (AssertionError "The number of households is too large.")))
  /\ (non_overlapping within gdf_shapes ->
      forall w w' n joined,
        inputs.joined_households within gdf_shapes adm_cols df_xy xy_cols
          hh_adm_cols hh_xy_cols stop_fn w = (w', Ok (n, Some joined)) ->
        (pd.len joined <= pd.len df_xy)%nat).
Proof.
  split; [| split].
  - intros w w' df_hh H. unfold inputs.process_google_buildings in H.
    bind_inv H joined w1 Hj. destruct joined as [n [j |]]; simpl in H.
    + apply joined_households_inv in Hj as [-> _].
      destruct (N.of_nat (pd.len j) <=? N.of_nat (pd.len df_xy))%N eqn:E.
      * apply lift_Ok_inv in H as [_ H]. apply sort_values_len in H.
        apply N.leb_le in E. pose proof (dropna_len j). lia.
      * discriminate.
    + discriminate.
  - intros w w' n joined. apply too_many_households_abort.
  - intros Hno w w' n joined Hj.
    apply joined_households_inv in Hj as [_ Hle]. exact (Hle Hno).
Qed.

Lemma Rltb_true (x y : R) : (x < y)%R -> Rltb x y = true.
Proof. intros H. unfold Rltb. destruct (Rlt_dec x y); [reflexivity | contradiction]. Qed.

Lemma Rltb_false (x y : R) : (y <= x)%R -> Rltb x y = false.
Proof. intros H. unfold Rltb. destruct (Rlt_dec x y); [lra | reflexivity]. Qed.

Lemma building_within_both :
  rect_within (Point 1 1) (Polygon [(0, 0); (2, 0); (2, 2); (0, 2)]%R) = true
  /\ rect_within (Point 1 1) (Polygon [(0, 0); (3, 0); (3, 3); (0, 3)]%R) = true.
Proof.
  unfold rect_within. simpl.
  rewrite !(Rltb_true 0 1), !(Rltb_true 1 2), !(Rltb_true 1 3) by lra.
  rewrite ?(Rltb_false 2 1), ?(Rltb_false 3 1), ?(Rltb_false 1 0) by lra.
  split; reflexivity.
Qed.

(** C2, refuted as stated: one building within two overlapping rectangles
    is joined twice, so the joined households (2 rows) outnumber the points
    (1 row); the run stops with the assertion error. *)
Lemma process_google_buildings_overlap_counterexample :
  exists w' joined,
    inputs.joined_households rect_within overlapping_shapes ["adm1"] one_building
      ["lon"; "lat"] ["adm1"] ["lon"; "lat"] (mret tt) (mkWorld [] ∅ [])
    = (w', Ok (1%N, Some joined))
    /\ pd.rows joined = [[VStr "A"; VInt 1; VInt 1]; [VStr "B"; VInt 1; VInt 1]]
    /\ pd.len joined = 2%nat /\ pd.len one_building = 1%nat
    /\ inputs.process_google_buildings rect_within overlapping_shapes ["adm1"]
         one_building ["lon"; "lat"] ["adm1"] ["lon"; "lat"] (mret tt)
         (mkWorld [] ∅ [])
       = (w', Raise (AssertionError "The number of households is too large.")).
Proof.
  destruct building_within_both as [HA HB].
  assert (Hj : exists w',
    inputs.joined_households rect_within overlapping_shapes ["adm1"] one_building
      ["lon"; "lat"] ["adm1"] ["lon"; "lat"] (mret tt) (mkWorld [] ∅ [])
    = (w', Ok (1%N, Some (pd.mkDF ["adm1"; "lon"; "lat"]
                            [[VStr "A"; VInt 1; VInt 1];
                             [VStr "B"; VInt 1; VInt 1]])))).
  { eexists. cbv -[rect_within IZR]. rewrite HA, HB. reflexivity. }
  destruct Hj as [w' Hj]. exists w'. eexists.
  split; [exact Hj |]. split; [reflexivity |]. split; [reflexivity |].
  split; [reflexivity |].
  apply (too_many_households_abort _ _ _ _ _ _ _ _ _ _ _ _ Hj).
  unfold pd.len. simpl. lia.
Qed.

Lemma process_google_buildings_row_bound_witness :
  exists w' df_hh joined,
    inputs.process_google_buildings rect_within single_shape ["adm1"] one_building
      ["lon"; "lat"] ["adm1"] ["lon"; "lat"] (mret tt) (mkWorld [] ∅ [])
    = (w', Ok df_hh)
    /\ inputs.joined_households rect_within single_shape ["adm1"] one_building
         ["lon"; "lat"] ["adm1"] ["lon"; "lat"] (mret tt) (mkWorld [] ∅ [])
       = (w', Ok (1%N, Some joined))
    /\ pd.rows df_hh = [[VStr "A"; VInt 1; VInt 1]]
    /\ (pd.len df_hh <= pd.len one_building)%nat
    /\ (pd.len joined <= pd.len one_building)%nat.
Proof.
  destruct building_within_both as [HA _].
  assert (Hrun : exists w',
    inputs.process_google_buildings rect_within single_shape ["adm1"] one_building
      ["lon"; "lat"] ["adm1"] ["lon"; "lat"] (mret tt) (mkWorld [] ∅ [])
    = (w', Ok (pd.mkDF ["adm1"; "lon"; "lat"] [[VStr "A"; VInt 1; VInt 1]]))
    /\ inputs.joined_households rect_within single_shape ["adm1"] one_building
         ["lon"; "lat"] ["adm1"] ["lon"; "lat"] (mret tt) (mkWorld [] ∅ [])
       = (w', Ok (1%N, Some (pd.mkDF ["adm1"; "lon"; "lat"]
                               [[VStr "A"; VInt 1; VInt 1]])))).
  { eexists. split; cbv -[rect_within IZR]; rewrite HA; reflexivity. }
  destruct Hrun as (w' & Hrun & Hj).
  destruct (process_google_buildings_row_bound rect_within single_shape ["adm1"]
              one_building ["lon"; "lat"] ["adm1"] ["lon"; "lat"] (mret tt))
    as (Hbound & _ & Hjoin).
  exists w', (pd.mkDF ["adm1"; "lon"; "lat"] [[VStr "A"; VInt 1; VInt 1]]),
         (pd.mkDF ["adm1"; "lon"; "lat"] [[VStr "A"; VInt 1; VInt 1]]).
  split; [exact Hrun |]. split; [exact Hj |]. split; [reflexivity |].
  split; [exact (Hbound _ _ _ Hrun) |].
  refine (Hjoin _ _ _ _ _ Hj).
  intros g. unfold single_shape. simpl.
  match goal with |- context [if ?b then _ else _] => destruct b end;
    simpl; lia.
Defined.

End DerivationFacts.

(** ** The order of cells, keys and rows *)

Section OrderFacts.

Lemma Z_TotalCmp : TotalCmp Z.compare.
Proof.
  split.
  - apply Z.compare_eq.
  - apply Z.compare_refl.
  - intros a b. apply Z.compare_antisym.
  - intros a b c. rewrite !Z.compare_lt_iff. lia.
Qed.

Lemma nat_TotalCmp : TotalCmp Nat.compare.
Proof.
  split.
  - apply Nat.compare_eq.
  - apply Nat.compare_refl.
  - intros a b. apply Nat.compare_antisym.
  - intros a b c. rewrite !Nat.compare_lt_iff. lia.
Qed.

Lemma bool_TotalCmp : TotalCmp Bool.compare.
Proof.
  split.
  - intros [] []; simpl; congruence.
  - intros []; reflexivity.
  - intros [] []; reflexivity.
  - intros [] [] []; simpl; congruence.
Qed.

Lemma R_TotalCmp : TotalCmp pd.Rcompare.
Proof.
  unfold pd.Rcompare. split.
  - intros a b. destruct (total_order_T a b) as [[H | H] | H]; congruence.
  - intros a. destruct (total_order_T a a) as [[H | H] | H];
      [exfalso; lra | reflexivity | exfalso; lra].
  - intros a b.
    destruct (total_order_T a b) as [[H | H] | H],
             (total_order_T b a) as [[H' | H'] | H'];
      simpl; try reflexivity; exfalso; lra.
  - intros a b c.
    destruct (total_order_T a b) as [[H | H] | H]; try discriminate.
    destruct (total_order_T b c) as [[H' | H'] | H']; try discriminate.
    destruct (total_order_T a c) as [[H'' | H''] | H''];
      [reflexivity | exfalso; lra | exfalso; lra].
Qed.

Lemma string_TotalCmp : TotalCmp String.compare.
Proof.
  split.
  - apply String.compare_eq_iff.
  - intros a. now apply OrderedTypeEx.String_as_OT.cmp_eq.
  - intros a b. apply String.compare_antisym.
  - intros a b c Hab Hbc.
    apply OrderedTypeEx.String_as_OT.cmp_lt.
    apply OrderedTypeEx.String_as_OT.cmp_lt in Hab, Hbc.
    eapply OrderedTypeEx.String_as_OT.lt_trans; eauto.
Qed.

(** Comparing by a first criterion and, on a tie, by a second one. *)
Lemma then_TotalCmp {A B} (cmpA : A -> A -> comparison)
    (cmpB : B -> B -> comparison) :
  TotalCmp cmpA -> TotalCmp cmpB ->
  TotalCmp (fun p q : A * B =>
              match cmpA (fst p) (fst q) with
              | Eq => cmpB (snd p) (snd q)
              | c => c
              end).
Proof.
  intros HA HB. split.
  - intros [a b] [a' b']; simpl.
    destruct (cmpA a a') eqn:E; try discriminate.
    intros E'. apply (cmp_eq _ HA) in E. apply (cmp_eq _ HB) in E'. congruence.
  - intros [a b]; simpl. now rewrite (cmp_refl _ HA), (cmp_refl _ HB).
  - intros [a b] [a' b']; simpl. rewrite (cmp_antisym _ HA a a').
    destruct (cmpA a a'); simpl; [apply (cmp_antisym _ HB) | reflexivity..].
  - intros [a b] [a' b'] [a'' b'']; simpl.
    destruct (cmpA a a') eqn:E1; try discriminate;
      destruct (cmpA a' a'') eqn:E2; try discriminate; intros H1 H2.
    + apply (cmp_eq _ HA) in E1, E2. subst.
      rewrite (cmp_refl _ HA). eapply (cmp_trans _ HB); eauto.
    + apply (cmp_eq _ HA) in E1. subst. now rewrite E2.
    + apply (cmp_eq _ HA) in E2. subst. now rewrite E1.
    + now rewrite (cmp_trans _ HA _ _ _ E1 E2).
Qed.

Lemma coord_TotalCmp : TotalCmp pd.coord_compare.
Proof. apply (then_TotalCmp _ _ R_TotalCmp R_TotalCmp). Qed.

Lemma lex_TotalCmp {A} (cmp : A -> A -> comparison) :
  TotalCmp cmp -> TotalCmp (pd.lex_compare cmp).
Proof.
  intros HA. split.
  - induction a as [| x a IH]; intros [| y b]; simpl; try discriminate;
      [reflexivity |].
    destruct (cmp x y) eqn:E; try discriminate.
    intros E'. apply (cmp_eq _ HA) in E. apply IH in E'. congruence.
  - induction a as [| x a IH]; simpl; [reflexivity |].
    now rewrite (cmp_refl _ HA).
  - induction a as [| x a IH]; intros [| y b]; simpl; try reflexivity.
    rewrite (cmp_antisym _ HA x y).
    destruct (cmp x y); simpl; [apply IH | reflexivity..].
  - induction a as [| x a IH]; intros [| y b] [| z c]; simpl;
      try discriminate; try reflexivity.
    destruct (cmp x y) eqn:E1; try discriminate;
      destruct (cmp y z) eqn:E2; try discriminate; intros H1 H2.
    + apply (cmp_eq _ HA) in E1, E2. subst.
      rewrite (cmp_refl _ HA). eapply IH; eauto.
    + apply (cmp_eq _ HA) in E1. subst. now rewrite E2.
    + apply (cmp_eq _ HA) in E2. subst. now rewrite E1.
    + now rewrite (cmp_trans _ HA _ _ _ E1 E2).
Qed.

Lemma geom_TotalCmp : TotalCmp pd.geom_compare.
Proof.
  pose proof coord_TotalCmp as HC.
  pose proof (lex_TotalCmp _ HC) as HL.
  split.
  - intros [x y | s] [x' y' | s']; simpl; try discriminate; intros E.
    + apply (cmp_eq _ HC) in E. congruence.
    + apply (cmp_eq _ HL) in E. congruence.
  - intros [x y | s]; simpl; [apply (cmp_refl _ HC) | apply (cmp_refl _ HL)].
  - intros [x y | s] [x' y' | s']; simpl; try reflexivity.
    + apply (cmp_antisym _ HC (x, y) (x', y')).
    + apply (cmp_antisym _ HL).
  - intros [x y | s] [x' y' | s'] [x'' y'' | s'']; simpl;
      try discriminate; try reflexivity.
    + apply (cmp_trans _ HC (x, y) (x', y') (x'', y'')).
    + apply (cmp_trans _ HL).
Qed.

Lemma value_TotalCmp : TotalCmp pd.value_compare.
Proof.
  pose proof Z_TotalCmp as HZ. pose proof R_TotalCmp as HR.
  pose proof string_TotalCmp as HS. pose proof bool_TotalCmp as HB.
  pose proof geom_TotalCmp as HG.
  split.
  - intros [] []; simpl; try discriminate; intros E;
      first [ reflexivity
            | f_equal;
              first [ apply (cmp_eq _ HZ) | apply (cmp_eq _ HR)
                    | apply (cmp_eq _ HS) | apply (cmp_eq _ HB)
                    | apply (cmp_eq _ HG) ]; exact E ].
  - intros []; simpl;
      first [ apply (cmp_refl _ HZ) | apply (cmp_refl _ HR)
            | apply (cmp_refl _ HS) | apply (cmp_refl _ HB)
            | apply (cmp_refl _ HG) | reflexivity ].
  - intros [] []; simpl;
      first [ reflexivity
            | apply (cmp_antisym _ HZ) | apply (cmp_antisym _ HR)
            | apply (cmp_antisym _ HS) | apply (cmp_antisym _ HB)
            | apply (cmp_antisym _ HG) ].
  - intros [] [] []; simpl; try discriminate; try reflexivity;
      first [ apply (cmp_trans _ HZ) | apply (cmp_trans _ HR)
            | apply (cmp_trans _ HS) | apply (cmp_trans _ HB)
            | apply (cmp_trans _ HG) ].
Qed.

Lemma key_TotalCmp : TotalCmp pd.key_compare.
Proof. apply lex_TotalCmp, value_TotalCmp. Qed.


Lemma key_leb_refl (a : list value) : pd.key_leb a a = true.
Proof. unfold pd.key_leb. now rewrite (cmp_refl _ key_TotalCmp). Qed.



End OrderFacts.

(** ** Sorting *)

Section SortFacts.
Variable idx : list nat.







End SortFacts.

(** ** Merging the results of the locations *)

Section MergeFacts.
Import config.




(** *** One kind of artifact *)



















End MergeFacts.
